(** * Sharkbyte tattoo generator: the request handler of [main.py]

    A shallow embedding of [generate_tattoo] (src/project/main.py) and the
    properties its specification states about it.

    Conventions of the embedding.
    - A Python [str] is a Rocq [string]; a character is its code point, so
      the embedding covers the strings of code points 0..255 (ASCII and
      Latin-1).  File names with characters above 255 are outside it.
    - A Python [bytes] is a [list byte].
    - A Python [int] is an [N] when it is known to be non-negative.
    - An exception is a value of [Exception]; code that can raise returns a
      [result].  Only instances of Python's [Exception] class are modelled,
      which is what the three [except Exception] clauses of the handler
      catch.
    - The directory ["generated images"] is a finite map from file names to
      file contents.  Creating and listing it succeed; writing an image
      into it can raise, and then leaves no file behind.
    - The image library, the generation client and the page templates are
      parameters: each of their operations gives a value or raises. *)

From Stdlib Require Import DecimalString DecimalN NArith Ascii String.
From Stdlib.Strings Require Import Byte.
From stdpp Require Import gmap strings list fin_maps.

Local Open Scope string_scope.

(** ** Python strings *)

Module PyStr.

(** [s.startswith(p)] *)
Fixpoint startswith (s p : string) {struct p} : bool :=
  match p with
  | EmptyString => true
  | String c p' =>
      match s with
      | EmptyString => false
      | String d s' => if Ascii.eqb c d then startswith s' p' else false
      end
  end.

(** [s[n:]] *)
Fixpoint drop (n : nat) (s : string) : string :=
  match n with
  | O => s
  | S n' => match s with EmptyString => EmptyString | String _ s' => drop n' s' end
  end.

(** [s[:n]] *)
Fixpoint take (n : nat) (s : string) : string :=
  match n with
  | O => EmptyString
  | S n' => match s with EmptyString => EmptyString | String c s' => String c (take n' s') end
  end.

(** [s.endswith(p)]: [p] is no longer than [s] and the last [len(p)]
    characters of [s] are [p]. *)
Definition endswith (s p : string) : bool :=
  (String.length p <=? String.length s)%nat
  && String.eqb (drop (String.length s - String.length p) s) p.

(** [s[i:-j]] for literal [i] and [j > 0]: the characters from position
    [i] up to, and not including, position [len(s) - j]; empty when the
    two positions cross. *)
Definition slice (i j : nat) (s : string) : string :=
  take (String.length s - j - i) (drop i s).

(** [c.lower()] on the code points below 256: the ASCII capitals and the
    Latin-1 capitals U+00C0..U+00DE, the multiplication sign U+00D7
    excepted, move up by 32. *)
Definition lower_char (c : ascii) : ascii :=
  let n := N_of_ascii c in
  if ((65 <=? n) && (n <=? 90))%N then ascii_of_N (n + 32)
  else if ((192 <=? n) && (n <=? 222) && negb (n =? 215))%N then ascii_of_N (n + 32)
  else c.

(** [s.lower()] *)
Fixpoint lower (s : string) : string :=
  match s with
  | EmptyString => EmptyString
  | String c s' => String (lower_char c) (lower s')
  end.

(** The characters [c] with [c.isdigit()]: the ten ASCII digits, and the
    superscripts two, three and one of Latin-1 (U+00B2, U+00B3, U+00B9). *)
Definition isdigit_char (c : ascii) : bool :=
  let n := N_of_ascii c in
  ((48 <=? n) && (n <=? 57) || (n =? 178) || (n =? 179) || (n =? 185))%N.

Fixpoint all_digit (s : string) : bool :=
  match s with
  | EmptyString => true
  | String c s' => isdigit_char c && all_digit s'
  end.

(** [s.isdigit()]: at least one character, and every character is a
    digit. *)
Definition isdigit (s : string) : bool :=
  match s with
  | EmptyString => false
  | String _ _ => all_digit s
  end.

(** [p in s] *)
Fixpoint contains (s p : string) : bool :=
  startswith s p ||
  match s with
  | EmptyString => false
  | String _ s' => contains s' p
  end.

(** The line feed character, Python's ["\n"]. *)
Definition newline : string := String "010"%char EmptyString.

(** [sep.join(lines)] *)
Fixpoint join (sep : string) (lines : list string) : string :=
  match lines with
  | [] => EmptyString
  | [l] => l
  | l :: ls => l ++ sep ++ join sep ls
  end.

(** [s.split("\n")]: the pieces of [s] between line feeds, at least one. *)
Fixpoint split_lines (s : string) : list string :=
  match s with
  | EmptyString => [EmptyString]
  | String c s' =>
      if Ascii.eqb c "010"%char then EmptyString :: split_lines s'
      else
        match split_lines s' with
        | [] => [String c EmptyString]
        | l :: ls => String c l :: ls
        end
  end.

(** Truth value of a string: non-empty. *)
Definition truthy (s : string) : bool :=
  match s with EmptyString => false | String _ _ => true end.

(** [str(n)] for a non-negative integer. *)
Definition of_N (n : N) : string := NilZero.string_of_uint (N.to_uint n).

End PyStr.

(** ** Exceptions and results *)

(** An instance of Python's [Exception]; [str e] is [str(e)]. *)
Record Exception : Type := mkException { str : string }.

(** What [int] raises on a string that is not a decimal literal. *)
Definition ValueError (literal : string) : Exception :=
  mkException ("invalid literal for int() with base 10: '" ++ literal ++ "'").

(** The outcome of an expression that can raise. *)
Inductive result (A : Type) : Type :=
| Ok (a : A)
| Raise (e : Exception).
Arguments Ok {A} a.
Arguments Raise {A} e.

(** [int(s)] on a string of digit characters, the only strings the handler
    passes to it: the decimal value when every character is an ASCII
    digit (leading zeros allowed), and a [ValueError] otherwise, as for the
    superscript digits, which [isdigit] accepts and [int] rejects. *)
Definition int (s : string) : result N :=
  match s with
  | EmptyString => Raise (ValueError s)
  | String _ _ =>
      match NilEmpty.uint_of_string s with
      | Some d => Ok (N.of_uint d)
      | None => Raise (ValueError s)
      end
  end.

(** ** Bytes and base64 *)

Abbreviation bytes := (list byte).

Module Base64.

(** The standard alphabet: [A-Z], [a-z], [0-9], [+], [/]. *)
Definition alphabet (i : N) : ascii :=
  if (i <? 26)%N then ascii_of_N (65 + i)
  else if (i <? 52)%N then ascii_of_N (97 + (i - 26))
  else if (i <? 62)%N then ascii_of_N (48 + (i - 52))
  else if (i =? 62)%N then "+"%char
  else "/"%char.

Definition sextet (n : N) (shift : N) : ascii :=
  alphabet (N.land (N.shiftr n shift) 63).

(** [base64.b64encode(bs).decode()]: three bytes make four characters;
    a final group of one or two bytes is padded with [=]. *)
Fixpoint b64encode (bs : bytes) : string :=
  match bs with
  | [] => EmptyString
  | [a] =>
      let n := N.shiftl (Byte.to_N a) 16 in
      String (sextet n 18) (String (sextet n 12) "==")
  | [a; b] =>
      let n := N.lor (N.shiftl (Byte.to_N a) 16) (N.shiftl (Byte.to_N b) 8) in
      String (sextet n 18) (String (sextet n 12) (String (sextet n 6) "="))
  | a :: b :: c :: rest =>
      let n := N.lor (N.lor (N.shiftl (Byte.to_N a) 16) (N.shiftl (Byte.to_N b) 8))
                     (Byte.to_N c) in
      String (sextet n 18) (String (sextet n 12) (String (sextet n 6)
        (String (sextet n 0) (b64encode rest))))
  end.

End Base64.

(** ** The prompt (main.py, lines 65 to 98) *)

(** An uploaded file is modelled by what [await upload.read()] gives. *)
Record UploadFile : Type := { read : result bytes }.

Module Prompt.

Definition task_line : string :=
  "You generate images of tattoos overlayed on skin of submitted images.".
Definition fit_line : string :=
  "Based on the provided input data, create a tattoo design that fits naturally on the body part shown.".
Definition input_line : string := "Input data:".
Definition photo_line : string :=
  "- Photo: An attached image of a body part (can be a hand, arm, leg, face, etc.)".
Definition reference_line : string :=
  "- Reference Image: An attached image that serves as the inspiration for the tattoo design. Use it as the primary reference for style/subject where appropriate.".
Definition theme_general (theme : string) : string :=
  "- Theme (general description of tattoo): " ++ theme.
Definition theme_supplementary (theme : string) : string :=
  "- Theme (supplementary details for the tattoo based off the chosen reference image): " ++ theme.
Definition style_line (style : string) : string :=
  "- Style (artistic style of tattoo): " ++ style.
Definition color_mode_line (color_mode : string) : string :=
  "- Color Mode (examples: black and white, rainbow color, monochrome, etc.): " ++ color_mode.
Definition physical_attributes_line (physical_attributes : string) : string :=
  "- Physical Attributes (size/placement): " ++ physical_attributes.
Definition no_text_line : string :=
  "Do not generate any text in your response. Your response should only consist of a generated image.".
Definition no_modify_line : string :=
  "Do not modify the original image except to add the tattoo design.".

(** [lines.append(x)] *)
Definition append (lines : list string) (x : string) : list string := lines ++ [x].

(** The list [lines] as the handler builds it, one append after the
    other. *)
Definition lines (reference : option UploadFile)
    (theme style color_mode physical_attributes : string) : list string :=
  let lines := [task_line; fit_line; input_line; photo_line] in
  let lines :=
    match reference with
    | Some _ => append lines reference_line
    | None => lines
    end in
  let lines :=
    if PyStr.truthy theme then
      match reference with
      | None => append lines (theme_general theme)
      | Some _ => append lines (theme_supplementary theme)
      end
    else lines in
  let lines :=
    if PyStr.truthy style then append lines (style_line style) else lines in
  let lines :=
    if PyStr.truthy color_mode then append lines (color_mode_line color_mode) else lines in
  let lines :=
    if PyStr.truthy physical_attributes
    then append lines (physical_attributes_line physical_attributes) else lines in
  let lines := append lines "" in
  let lines := append lines no_text_line in
  let lines := append lines no_modify_line in
  lines.

(** [prompt = "\n".join(lines)] *)
Definition prompt (reference : option UploadFile)
    (theme style color_mode physical_attributes : string) : string :=
  PyStr.join PyStr.newline (lines reference theme style color_mode physical_attributes).

(** The lines as the specification lists them: a fixed preamble, then one
    optional line per input that is present, then the trailing instruction
    pair. *)
Definition preamble : list string := [task_line; fit_line; input_line; photo_line].
Definition trailing_pair : list string := [no_text_line; no_modify_line].

Definition line_if (present : bool) (line : string) : list string :=
  if present then [line] else [].

Definition optional_lines (has_reference : bool)
    (theme style color_mode physical_attributes : string) : list string :=
  line_if has_reference reference_line
  ++ line_if (negb (String.eqb theme ""))
       (if has_reference then theme_supplementary theme else theme_general theme)
  ++ line_if (negb (String.eqb style "")) (style_line style)
  ++ line_if (negb (String.eqb color_mode "")) (color_mode_line color_mode)
  ++ line_if (negb (String.eqb physical_attributes ""))
       (physical_attributes_line physical_attributes).

Definition claimed_lines (has_reference : bool)
    (theme style color_mode physical_attributes : string) : list string :=
  preamble
  ++ optional_lines has_reference theme style color_mode physical_attributes
  ++ trailing_pair.

(** The same with an empty line before the trailing pair. *)
Definition spec_lines (has_reference : bool)
    (theme style color_mode physical_attributes : string) : list string :=
  preamble
  ++ optional_lines has_reference theme style color_mode physical_attributes
  ++ [""]
  ++ trailing_pair.

(** The lines in one string, a line feed (character 10) between two
    lines. *)
Definition joined (lines : list string) : string :=
  match lines with
  | [] => ""
  | first :: others =>
      first ++ String.concat "" (List.map (String "010"%char) others)
  end.

End Prompt.

(** ** The handler's requests and responses *)

Record Blob : Type := { data : option bytes }.
Record Part : Type := { text : option string; inline_data : option Blob }.
Record GenerateContentResponse : Type := { parts : option (list Part) }.

Record ResultContext : Type := {
  uploaded_image_base64 : string;
  generated_image_base64 : option string;
  style : string;
  theme : string;
  color_mode : string;
  size : string;
}.

(** A response, as the data it is made from: the JSON object, or the
    template's name with the [result] and [error] of its context. *)
Inductive HTTPResponse : Type :=
| JSONResponse (generated_text : string) (image_base64 : option string)
| TemplateResponse (name : string) (result : option ResultContext) (error : option string).

(** A request, reduced to its headers; the keys are lower-case header
    names. *)
Record Request : Type := { headers : gmap string string }.

(** ** External collaborators *)

(** The image library (PIL), the generation client (google.genai) and the
    templates (Jinja2, with the repository's [index.html]), as the handler
    uses them.  Each operation gives its value or raises.
    - [Image_open b] is [Image.open(BytesIO(b))].
    - [Image_save_png img] is [img.save(buffer, "PNG")] on a fresh buffer:
      the bytes in the buffer.
    - [Image_save_file img name] is [img.save(path)] for the path of [name]
      in the directory: the bytes it writes.  The name is always a new
      one here, and the library removes a file it created when the save
      fails: when the call raises, no file is left under that name.
    - [generate_content model contents] is the client's answer.
    - [template_render name request result error] is what building
      [templates.TemplateResponse(name, {...})] renders: the page. *)
Class Collaborators : Type := {
  Image : Type;
  Image_open : bytes -> result Image;
  Image_save_png : Image -> result bytes;
  Image_save_file : Image -> string -> result bytes;
  generate_content : string -> list (string + Image) -> result GenerateContentResponse;
  template_render :
    string -> Request -> option ResultContext -> option string -> result string;
}.

(** An item of a content list: a text or an image. *)
Definition Content `{Collaborators} : Type := (string + Image)%type.

(** ** The world the handler acts on, and the monad of its effects *)

Section Handler.

Context `{Collaborators}.

(** [files]: the content of the directory ["generated images"], by file
    name.  [api_calls]: the calls made to the generation client, oldest
    first, each with its model name and content list. *)
Record World : Type := {
  files : gmap string bytes;
  api_calls : list (string * list Content);
}.

Definition M (A : Type) : Type := World -> result A * World.

Definition ret {A} (a : A) : M A := fun w => (Ok a, w).

Definition bind {A B} (c : M A) (k : A -> M B) : M B :=
  fun w =>
    match c w with
    | (Ok a, w') => k a w'
    | (Raise e, w') => (Raise e, w')
    end.

(** A pure expression that can raise. *)
Definition lift {A} (r : result A) : M A := fun w => (r, w).

(** [try: c  except Exception as e: handler e]; what [c] did to the world
    before it raised stays done. *)
Definition try_except {A} (c : M A) (handler : Exception -> M A) : M A :=
  fun w =>
    match c w with
    | (Ok a, w') => (Ok a, w')
    | (Raise e, w') => handler e w'
    end.

(** [os.listdir(generated_dir)] *)
Definition listdir : M (list string) :=
  fun w => (Ok ((map_to_list (files w)).*1), w).

(** [img.save(os.path.join(generated_dir, name))]: the file is there
    afterwards, or the call raised and the directory is as it was. *)
Definition save_file (img : Image) (name : string) : M unit :=
  fun w =>
    match Image_save_file img name with
    | Ok content =>
        (Ok tt, {| files := <[name := content]> (files w); api_calls := api_calls w |})
    | Raise e => (Raise e, w)
    end.

(** [client.models.generate_content(model=..., contents=...)] *)
Definition call_generate_content (model : string) (contents : list Content)
  : M GenerateContentResponse :=
  fun w => (generate_content model contents,
            {| files := files w; api_calls := api_calls w ++ [(model, contents)] |}).

(** [templates.TemplateResponse(name, {"request": request, "result":
    result, "error": error})]: the response, or the exception raised
    while the page is rendered. *)
Definition templates_TemplateResponse (name : string) (request : Request)
    (context_result : option ResultContext) (context_error : option string)
  : result HTTPResponse :=
  match template_render name request context_result context_error with
  | Ok _ => Ok (TemplateResponse name context_result context_error)
  | Raise e => Raise e
  end.

End Handler.

Declare Scope py_scope.
Delimit Scope py_scope with py.
Notation "x <- c ;; k" := (bind c (fun x => k))
  (at level 100, c at next level, right associativity) : py_scope.

(** ** The handler (main.py, lines 45 to 192) *)

Section GenerateTattoo.

Context `{Collaborators}.
Local Open Scope py_scope.

(** The file names the scan keeps (line 140). *)
Definition is_existing (f : string) : bool :=
  PyStr.startswith f "generated_image" && PyStr.endswith (PyStr.lower f) ".png".

(** [fn[len("generated_image"):-4]] (line 144) *)
Definition stem (fn : string) : string :=
  PyStr.slice (String.length "generated_image") 4 fn.

(** One turn of the loop of lines 142 to 148. *)
Definition scan_step (max_idx : N) (fn : string) : result N :=
  let name := stem fn in
  if PyStr.isdigit name then
    match int name with
    | Ok idx => Ok (if (max_idx <? idx)%N then idx else max_idx)
    | Raise e => Raise e
    end
  else Ok max_idx.

(** The loop of lines 142 to 148, from the current [max_idx]. *)
Fixpoint scan (existing : list string) (max_idx : N) : result N :=
  match existing with
  | [] => Ok max_idx
  | fn :: rest =>
      match scan_step max_idx fn with
      | Ok max_idx' => scan rest max_idx'
      | Raise e => Raise e
      end
  end.

(** Lines 140 to 149: the index of the next file, from a directory
    listing. *)
Definition next_index (listing : list string) : result N :=
  let existing := List.filter is_existing listing in
  match scan existing 0%N with
  | Ok max_idx => Ok (max_idx + 1)%N
  | Raise e => Raise e
  end.

(** [f"generated_image{next_idx}.png"] *)
Definition output_name (next_idx : N) : string :=
  "generated_image" ++ PyStr.of_N next_idx ++ ".png".

(** [img_data or b""], also what [BytesIO(img_data)] holds. *)
Definition bytes_or_empty (img_data : option bytes) : bytes :=
  match img_data with
  | Some b => b
  | None => []
  end.

(** The body of the [try] of lines 132 to 155: open the image, find the
    next index, save the file (line 151), encode once more into a buffer
    (line 154), and give the base64 string of the buffer.  Each of the four
    can raise.  ([os.makedirs] has nothing to do here: a directory that
    does not exist yet is the empty map.) *)
Definition save_generated (img_data : option bytes) : M string :=
  gen_img <- lift (Image_open (bytes_or_empty img_data)) ;;
  listing <- listdir ;;
  next_idx <- lift (next_index listing) ;;
  _ <- save_file gen_img (output_name next_idx) ;;
  buffer <- lift (Image_save_png gen_img) ;;
  ret (Base64.b64encode buffer).

(** One turn of the loop over the parts (lines 123 to 158), on the pair
    [(generated_text, generated_image_base64)]. *)
Definition process_part (acc : string * option string) (part : Part)
  : M (string * option string) :=
  let '(generated_text, generated_image_base64) := acc in
  match text part with
  | Some (String c t) => ret (generated_text ++ String c t, generated_image_base64)
  | _ =>
      match inline_data part with
      | Some blob =>
          let img_data := data blob in
          b64 <- try_except (save_generated img_data)
                   (fun _ => ret (Base64.b64encode (bytes_or_empty img_data))) ;;
          ret (generated_text, Some b64)
      | None => ret (generated_text, generated_image_base64)
      end
  end.

Fixpoint process_parts (parts : list Part) (acc : string * option string)
  : M (string * option string) :=
  match parts with
  | [] => ret acc
  | part :: rest => acc' <- process_part acc part ;; process_parts rest acc'
  end.

(** Lines 101 to 111: the content list sent to the model.  The reference
    is appended once it has been read and opened; an exception on the
    way is dropped and the list stays as it was. *)
Definition build_contents (prompt : string) (user_image : Image)
    (reference : option UploadFile) : M (list Content) :=
  let contents : list Content := [inl prompt; inr user_image] in
  match reference with
  | Some upload =>
      try_except
        (ref_bytes <- lift (read upload) ;;
         ref_img <- lift (Image_open ref_bytes) ;;
         ret (contents ++ [inr ref_img])%list)
        (fun _ => ret contents)
  | None => ret contents
  end.

(** [request.headers.get("accept", "")] *)
Definition accept_header (request : Request) : string :=
  match headers request !! "accept" with
  | Some v => v
  | None => ""
  end.

(** Lines 160 to 186: JSON for a client that accepts it, the page
    otherwise; building the page can raise. *)
Definition render (request : Request) (uploaded_image_base64 : string)
    (style theme color_mode physical_attributes : string)
    (generated_text : string) (generated_image_base64 : option string)
  : result HTTPResponse :=
  let accept := accept_header request in
  if PyStr.contains accept "application/json" then
    Ok (JSONResponse generated_text generated_image_base64)
  else
    templates_TemplateResponse "index.html" request
      (Some {| uploaded_image_base64 := uploaded_image_base64;
               generated_image_base64 := generated_image_base64;
               style := style;
               theme := theme;
               color_mode := color_mode;
               size := physical_attributes |})
      None.

(** [getattr(response, "parts", []) or []] *)
Definition parts_of (response : GenerateContentResponse) : list Part :=
  match parts response with
  | Some ps => ps
  | None => []
  end.

(** The body of the outer [try] (lines 55 to 186). *)
Definition generate_tattoo_body (request : Request) (photo : UploadFile)
    (reference : option UploadFile)
    (style theme color_mode physical_attributes : string) : M HTTPResponse :=
  image_bytes <- lift (read photo) ;;
  user_image <- lift (Image_open image_bytes) ;;
  upload_buffer <- lift (Image_save_png user_image) ;;
  let uploaded_image_base64 := Base64.b64encode upload_buffer in
  let prompt := Prompt.prompt reference theme style color_mode physical_attributes in
  contents <- build_contents prompt user_image reference ;;
  response <- call_generate_content "gemini-2.5-flash-image" contents ;;
  out <- process_parts (parts_of response) ("", None) ;;
  lift (render request uploaded_image_base64 style theme color_mode physical_attributes
          (fst out) (snd out)).

(** [generate_tattoo]: the body under the outer [try], and the handler of
    lines 188 to 192, whose own page is built outside any [try]. *)
Definition generate_tattoo (request : Request) (photo : UploadFile)
    (reference : option UploadFile)
    (style theme color_mode physical_attributes : string) : M HTTPResponse :=
  try_except
    (generate_tattoo_body request photo reference style theme color_mode
       physical_attributes)
    (fun e => lift (templates_TemplateResponse "index.html" request None (Some (str e)))).

(** [home] (lines 36 to 41) *)
Definition home (request : Request) : M HTTPResponse :=
  lift (templates_TemplateResponse "index.html" request None None).

End GenerateTattoo.
(** ** Notions used to state the properties *)

Section Notions.

Context `{Collaborators}.

(** The index the scan reads off a file name: the name is kept by the
    filter of line 140, its stem passes [isdigit], and [int] gives the
    index. *)
Definition index_of (f : string) : option N :=
  if is_existing f && PyStr.isdigit (stem f) then
    match int (stem f) with
    | Ok idx => Some idx
    | Raise _ => None
    end
  else None.

(** The scan gets past the name [f] without an exception: [f] is skipped,
    or [int] accepts its stem. *)
Definition readable (f : string) : bool :=
  if is_existing f && PyStr.isdigit (stem f) then
    match int (stem f) with
    | Ok _ => true
    | Raise _ => false
    end
  else true.

(** The names in the directory, as [os.listdir] gives them. *)
Definition listing (fs : gmap string bytes) : list string := (map_to_list fs).*1.

(** The scan of the directory raises no exception. *)
Definition scannable (fs : gmap string bytes) : bool := forallb readable (listing fs).

(** The greatest index among the names, 0 when no name has one. *)
Definition max_index (names : list string) : N :=
  foldr (fun f m => match index_of f with Some i => N.max i m | None => m end) 0%N names.

(** A part the loop treats as an image part: no text (or an empty one) and
    inline data. *)
Definition image_data (part : Part) : option (option bytes) :=
  match text part with
  | Some (String _ _) => None
  | _ =>
      match inline_data part with
      | Some blob => Some (data blob)
      | None => None
      end
  end.

(** The text a part adds to [generated_text]. *)
Definition text_of (part : Part) : string :=
  match text part with
  | Some t => t
  | None => ""
  end.

(** The content list of lines 101 to 111, as a value. *)
Definition contents_of (prompt : string) (user_image : Image)
    (reference : option UploadFile) : list Content :=
  match reference with
  | Some {| read := Ok ref_bytes |} =>
      match Image_open ref_bytes with
      | Ok ref_img => [inl prompt; inr user_image; inr ref_img]
      | Raise _ => [inl prompt; inr user_image]
      end
  | _ => [inl prompt; inr user_image]
  end.

(** The page of lines 189 to 192. *)
Definition error_page (e : Exception) : HTTPResponse :=
  TemplateResponse "index.html" None (Some (str e)).

(** The world once one more call to the model is on record. *)
Definition called (w : World) (model : string) (contents : list Content) : World :=
  {| files := files w; api_calls := api_calls w ++ [(model, contents)] |}.

(** The world once one more file is in the directory. *)
Definition saved (w : World) (name : string) (content : bytes) : World :=
  {| files := <[name := content]> (files w); api_calls := api_calls w |}.

End Notions.

(** ** Relations between the world before and after *)

Section Frames.

Context `{Collaborators}.

(** Whether a reference upload came with the request. *)
Definition has_reference (reference : option UploadFile) : bool :=
  match reference with
  | Some _ => true
  | None => false
  end.

(** Every file of [w] is in [w'] with the content it had. *)
Definition files_kept (w w' : World) : Prop :=
  forall f c, files w !! f = Some c -> files w' !! f = Some c.

(** Every file of [w'] that [w] did not have is named
    [generated_image<n>.png] for an [n] above the index of every file of
    [w]. *)
Definition new_files_above (w w' : World) : Prop :=
  forall f, files w !! f = None -> is_Some (files w' !! f) ->
    exists n, f = output_name n
      /\ forall g i, is_Some (files w !! g) -> index_of g = Some i -> (i < n)%N.

(** What a response shows as the generated image, when it shows one. *)
Definition response_image (resp : HTTPResponse) : option (option string) :=
  match resp with
  | JSONResponse _ b => Some b
  | TemplateResponse _ (Some r) _ => Some (generated_image_base64 r)
  | TemplateResponse _ None _ => None
  end.

(** A response that reports a result, and no error. *)
Definition is_success (resp : HTTPResponse) : bool :=
  match resp with
  | JSONResponse _ _ => true
  | TemplateResponse _ (Some _) None => true
  | TemplateResponse _ _ _ => false
  end.

End Frames.

(** ** What a run of the parts loop amounts to *)

Section LoopNotions.

Context `{Collaborators}.

(** The text of all parts, in order. *)
Definition all_text (ps : list Part) : string :=
  foldr (fun p s => text_of p ++ s) "" ps.

(** The image of an image part whose data decode. *)
Definition decoded_image (part : Part) : option Image :=
  match image_data part with
  | Some d =>
      match Image_open (bytes_or_empty d) with
      | Ok img => Some img
      | Raise _ => None
      end
  | None => None
  end.

(** The images of the image parts whose data decode, in order. *)
Definition decoded (ps : list Part) : list Image := omap decoded_image ps.

(** What line 151 writes for a part when the next index is [n]: the bytes,
    for an image part whose data decode and whose save under
    [generated_image<n>.png] goes through. *)
Definition file_of (part : Part) (n : N) : option bytes :=
  match decoded_image part with
  | Some img =>
      match Image_save_file img (output_name n) with
      | Ok content => Some content
      | Raise _ => None
      end
  | None => None
  end.

(** The files written for the parts, in order, when the greatest index
    before the first part is [m]: a part that is saved takes the next index,
    a part that is not leaves the index to the next part. *)
Fixpoint written_files (m : N) (ps : list Part) : list bytes :=
  match ps with
  | [] => []
  | p :: rest =>
      match file_of p (m + 1) with
      | Some content => content :: written_files (m + 1) rest
      | None => written_files m rest
      end
  end.

(** The directory after these files are written, the first under index
    [m + 1]. *)
Fixpoint persist (m : N) (contents : list bytes) (fs : gmap string bytes)
  : gmap string bytes :=
  match contents with
  | [] => fs
  | content :: rest => persist (m + 1) rest (<[output_name (m + 1) := content]> fs)
  end.

(** One of the four steps of the save block raises [e] on the data [d] in
    the world [w]: decoding, the scan of the directory, writing the file
    (line 151), or encoding into the buffer (line 154). *)
Definition save_step_raises (d : option bytes) (w : World) (e : Exception) : Prop :=
  Image_open (bytes_or_empty d) = Raise e
  \/ exists img,
       Image_open (bytes_or_empty d) = Ok img
       /\ (next_index (listing (files w)) = Raise e
           \/ exists n,
                next_index (listing (files w)) = Ok n
                /\ (Image_save_file img (output_name n) = Raise e
                    \/ exists content,
                         Image_save_file img (output_name n) = Ok content
                         /\ Image_save_png img = Raise e)).

(** The strings an image part with data [d] can leave in
    [generated_image_base64]: the encoding of the raw data, or of the
    buffer of line 154. *)
Definition image_base64_options (d : option bytes) (b64 : string) : Prop :=
  b64 = Base64.b64encode (bytes_or_empty d)
  \/ exists img buffer,
       Image_open (bytes_or_empty d) = Ok img
       /\ Image_save_png img = Ok buffer
       /\ b64 = Base64.b64encode buffer.

End LoopNotions.

(** Unfolds the monad's operations in a goal. *)
Ltac run := unfold bind, lift, ret, try_except, listdir, save_file, call_generate_content.

(** ** File-name patterns *)

(** Every character of [s] is one of the ten ASCII digits. *)
Fixpoint ascii_digits (s : string) : bool :=
  match s with
  | EmptyString => true
  | String c s' =>
      ((48 <=? N_of_ascii c) && (N_of_ascii c <=? 57))%N && ascii_digits s'
  end.


(** [f] is [generated_image<digits><suffix>] for a suffix that is [.png]
    in some letter case, and the digits read [i]. *)
Definition counted (f : string) (i : N) : Prop :=
  exists digits suffix,
    f = "generated_image" ++ digits ++ suffix
    /\ PyStr.lower suffix = ".png"
    /\ ascii_digits digits = true
    /\ int digits = Ok i.

(** No character of [s] is a line feed. *)
Fixpoint no_line_feed (s : string) : bool :=
  match s with
  | EmptyString => true
  | String c s' => negb (Ascii.eqb c "010"%char) && no_line_feed s'
  end.

(** ** Start-up (main.py, lines 15 to 18) *)

(** [os.getenv("GEMINI_API_KEY")] on the environment as [load_dotenv] left
    it, and the check that follows: the key, or the [RuntimeError]. *)
Definition load_api_key (environ : gmap string string) : result string :=
  match environ !! "GEMINI_API_KEY" with
  | Some key =>
      if PyStr.truthy key then Ok key
      else Raise (mkException "GEMINI_API_KEY not set in .env")
  | None => Raise (mkException "GEMINI_API_KEY not set in .env")
  end.
(** ** Facts about Python strings *)

Module PyStrFacts.
Import PyStr.

Lemma length_app (s t : string) :
  String.length (s ++ t) = (String.length s + String.length t)%nat.
Proof. induction s as [|c s IH]; simpl; [reflexivity | now rewrite IH]. Qed.

Lemma startswith_app (p s : string) : startswith (p ++ s) p = true.
Proof.
  induction p as [|c p IH]; simpl; [reflexivity |].
  now rewrite Ascii.eqb_refl.
Qed.

Lemma drop_app (p s : string) : drop (String.length p) (p ++ s) = s.
Proof. induction p as [|c p IH]; simpl; [reflexivity | exact IH]. Qed.

Lemma take_app (s t : string) : take (String.length s) (s ++ t) = s.
Proof. induction s as [|c s IH]; simpl; [reflexivity | now rewrite IH]. Qed.

Lemma lower_app (s t : string) : lower (s ++ t) = lower s ++ lower t.
Proof. induction s as [|c s IH]; simpl; [reflexivity | now rewrite IH]. Qed.

Lemma lower_length (s : string) : String.length (lower s) = String.length s.
Proof. induction s as [|c s IH]; simpl; [reflexivity | now rewrite IH]. Qed.

Lemma endswith_app (s p : string) : endswith (s ++ p) p = true.
Proof.
  unfold endswith. rewrite length_app.
  replace (String.length s + String.length p - String.length p)%nat
    with (String.length s) by lia.
  rewrite drop_app, String.eqb_refl, andb_true_r.
  apply Nat.leb_le. lia.
Qed.

(** The decimal digits of a number are ASCII digits. *)
Lemma all_digit_uint (d : Decimal.uint) : all_digit (NilEmpty.string_of_uint d) = true.
Proof. induction d; simpl; try reflexivity; exact IHd. Qed.

Lemma to_uint_nonnil (n : N) : N.to_uint n <> Decimal.Nil.
Proof.
  destruct n as [|p]; simpl; [discriminate |].
  apply DecimalPos.Unsigned.to_uint_nonnil.
Qed.

Lemma of_N_nilempty (n : N) : of_N n = NilEmpty.string_of_uint (N.to_uint n).
Proof.
  unfold of_N, NilZero.string_of_uint.
  pose proof (to_uint_nonnil n) as Hn.
  destruct (N.to_uint n); [congruence | reflexivity ..].
Qed.

Lemma of_N_nonempty (n : N) : of_N n <> EmptyString.
Proof.
  rewrite of_N_nilempty. pose proof (to_uint_nonnil n) as Hn.
  destruct (N.to_uint n); [congruence | discriminate ..].
Qed.

(** [str(n).isdigit()] *)
Lemma isdigit_of_N (n : N) : isdigit (of_N n) = true.
Proof.
  pose proof (of_N_nonempty n) as Hne.
  unfold isdigit. destruct (of_N n) as [|c s] eqn:E; [congruence |].
  rewrite <- E, of_N_nilempty. apply all_digit_uint.
Qed.

(** Lower-casing leaves decimal digits alone. *)
Lemma lower_uint (d : Decimal.uint) :
  lower (NilEmpty.string_of_uint d) = NilEmpty.string_of_uint d.
Proof. induction d; simpl; try reflexivity; now rewrite IHd. Qed.

Lemma of_N_inj (n m : N) : of_N n = of_N m -> n = m.
Proof.
  rewrite !of_N_nilempty. intros E.
  apply DecimalN.Unsigned.to_uint_inj.
  pose proof (NilEmpty.usu (N.to_uint n)) as Hn.
  pose proof (NilEmpty.usu (N.to_uint m)) as Hm.
  rewrite E in Hn. congruence.
Qed.

Lemma app_inv_head (p s t : string) : p ++ s = p ++ t -> s = t.
Proof. induction p as [|c p IH]; simpl; [tauto | intros E; injection E; auto]. Qed.

Lemma app_inv_tail (s t p : string) : s ++ p = t ++ p -> s = t.
Proof.
  intros E.
  assert (L : String.length s = String.length t).
  { apply (f_equal String.length) in E. rewrite !length_app in E. lia. }
  revert t E L. induction s as [|c s IH]; intros [|d t] E L; simpl in *;
    try discriminate; [reflexivity |].
  injection E as -> E. f_equal. apply IH; [exact E | lia].
Qed.

Lemma app_nil_r (s : string) : s ++ "" = s.
Proof.
  induction s as [|c s IH]; [reflexivity |].
  change (String c (s ++ "") = String c s). now rewrite IH.
Qed.

Lemma app_assoc (s t u : string) : (s ++ t) ++ u = s ++ (t ++ u).
Proof.
  induction s as [|c s IH]; [reflexivity |].
  change (String c ((s ++ t) ++ u) = String c (s ++ (t ++ u))). now rewrite IH.
Qed.

End PyStrFacts.

(** [int(str(n)) == n] *)
Lemma int_of_N (n : N) : int (PyStr.of_N n) = Ok n.
Proof.
  pose proof (PyStrFacts.of_N_nonempty n) as Hne.
  unfold int. destruct (PyStr.of_N n) as [|c s] eqn:E; [congruence |].
  rewrite <- E, PyStrFacts.of_N_nilempty, NilEmpty.usu.
  now rewrite DecimalN.Unsigned.of_to.
Qed.

(** ** Facts about the directory scan *)

Section ScanFacts.

Lemma is_existing_output_name (n : N) : is_existing (output_name n) = true.
Proof.
  unfold is_existing, output_name.
  apply andb_true_intro; split; [apply PyStrFacts.startswith_app |].
  rewrite !PyStrFacts.lower_app, PyStrFacts.of_N_nilempty, PyStrFacts.lower_uint.
  change (PyStr.lower ".png") with ".png".
  rewrite <- PyStrFacts.app_assoc. apply PyStrFacts.endswith_app.
Qed.

Lemma stem_output_name (n : N) : stem (output_name n) = PyStr.of_N n.
Proof.
  unfold stem, output_name, PyStr.slice.
  rewrite PyStrFacts.drop_app, !PyStrFacts.length_app.
  replace (String.length "generated_image"
           + (String.length (PyStr.of_N n) + String.length ".png") - 4
           - String.length "generated_image")%nat
    with (String.length (PyStr.of_N n)) by (simpl; lia).
  apply PyStrFacts.take_app.
Qed.

Lemma index_of_output_name (n : N) : index_of (output_name n) = Some n.
Proof.
  unfold index_of.
  now rewrite is_existing_output_name, stem_output_name,
    PyStrFacts.isdigit_of_N, int_of_N.
Qed.

Lemma output_name_inj (n m : N) : output_name n = output_name m -> n = m.
Proof.
  intros E. assert (Some n = Some m) as [= ->]; [| reflexivity].
  now rewrite <- !index_of_output_name, E.
Qed.

Lemma max_index_cons (f : string) (l : list string) :
  max_index (f :: l)
  = match index_of f with Some i => N.max i (max_index l) | None => max_index l end.
Proof. reflexivity. Qed.

(** On a listing the scan can read, the loop computes the greatest index. *)
Lemma scan_max_index (l : list string) (m0 : N) :
  forallb readable l = true ->
  scan (List.filter is_existing l) m0 = Ok (N.max m0 (max_index l)).
Proof.
  revert m0. induction l as [|f l IH]; intros m0 Hl.
  - simpl. f_equal. lia.
  - simpl in Hl. apply andb_prop in Hl as [Hf Hl].
    rewrite max_index_cons. unfold readable in Hf. unfold index_of.
    simpl List.filter. destruct (is_existing f) eqn:Ef; simpl andb in *.
    + simpl scan. unfold scan_step.
      destruct (PyStr.isdigit (stem f)) eqn:Ed.
      * destruct (int (stem f)) as [idx|e]; [| discriminate].
        rewrite (IH _ Hl). f_equal.
        destruct (N.ltb_spec m0 idx); lia.
      * apply (IH _ Hl).
    + apply (IH _ Hl).
Qed.

(** On any other listing the loop raises. *)
Lemma scan_raises (l : list string) (m0 : N) :
  forallb readable l = false ->
  exists e, scan (List.filter is_existing l) m0 = Raise e.
Proof.
  revert m0. induction l as [|f l IH]; intros m0 Hl; [discriminate |].
  simpl in Hl. simpl List.filter. unfold readable in Hl.
  destruct (is_existing f) eqn:Ef; simpl andb in *.
  - simpl scan. unfold scan_step.
    destruct (PyStr.isdigit (stem f)) eqn:Ed.
    + destruct (int (stem f)) as [idx|e]; [| eauto].
      apply IH. exact Hl.
    + apply IH. exact Hl.
  - apply IH. exact Hl.
Qed.

Lemma next_index_ok (l : list string) :
  forallb readable l = true -> next_index l = Ok (max_index l + 1)%N.
Proof.
  intros Hl. unfold next_index. rewrite (scan_max_index _ _ Hl).
  f_equal. lia.
Qed.

Lemma next_index_raises (l : list string) :
  forallb readable l = false -> exists e, next_index l = Raise e.
Proof.
  intros Hl. unfold next_index.
  destruct (scan_raises l 0%N Hl) as [e ->]. eauto.
Qed.

Lemma max_index_upper (l : list string) (f : string) (i : N) :
  f ∈ l -> index_of f = Some i -> (i <= max_index l)%N.
Proof.
  induction l as [|g l IH]; intros Hin Hi; [inversion Hin |].
  rewrite max_index_cons. apply elem_of_cons in Hin as [<- | Hin].
  - rewrite Hi. lia.
  - specialize (IH Hin Hi). destruct (index_of g); lia.
Qed.


Lemma max_index_perm (l l' : list string) : l ≡ₚ l' -> max_index l = max_index l'.
Proof.
  induction 1 as [| x l l' _ IH | x y l | l l' l'' _ IH1 _ IH2].
  - reflexivity.
  - rewrite !max_index_cons, IH. reflexivity.
  - rewrite !max_index_cons. destruct (index_of x), (index_of y); lia.
  - congruence.
Qed.

Lemma forallb_readable_perm (l l' : list string) :
  l ≡ₚ l' -> forallb readable l = forallb readable l'.
Proof.
  induction 1 as [| x l l' _ IH | x y l | l l' l'' _ IH1 _ IH2]; simpl.
  - reflexivity.
  - now rewrite IH.
  - destruct (readable x), (readable y); reflexivity.
  - congruence.
Qed.

Lemma elem_of_listing (fs : gmap string bytes) (f : string) :
  f ∈ listing fs <-> is_Some (fs !! f).
Proof.
  unfold listing. rewrite list_elem_of_fmap. split.
  - intros ([g c] & -> & Hin). apply elem_of_map_to_list in Hin. simpl. eauto.
  - intros [c Hc]. exists (f, c). split; [reflexivity |].
    now apply elem_of_map_to_list.
Qed.

Lemma listing_insert (fs : gmap string bytes) (f : string) (c : bytes) :
  fs !! f = None -> listing (<[f := c]> fs) ≡ₚ f :: listing fs.
Proof.
  intros Hf. unfold listing.
  now rewrite (map_to_list_insert fs f c Hf).
Qed.


(** The name of the next file is not in the directory. *)
Lemma output_name_fresh (fs : gmap string bytes) (n : N) :
  (max_index (listing fs) < n)%N -> fs !! output_name n = None.
Proof.
  intros Hn. destruct (fs !! output_name n) as [c|] eqn:E; [| reflexivity].
  assert (Hin : output_name n ∈ listing fs) by (apply elem_of_listing; eauto).
  pose proof (max_index_upper _ _ _ Hin (index_of_output_name n)). lia.
Qed.

(** Saving the next file keeps the directory readable and moves the
    greatest index to the new file's. *)
Lemma scannable_insert (fs : gmap string bytes) (n : N) (c : bytes) :
  fs !! output_name n = None ->
  scannable (<[output_name n := c]> fs) = scannable fs.
Proof.
  intros Hf. unfold scannable.
  rewrite (forallb_readable_perm _ _ (listing_insert fs _ c Hf)). simpl.
  unfold readable at 1.
  now rewrite is_existing_output_name, stem_output_name,
    PyStrFacts.isdigit_of_N, int_of_N.
Qed.

Lemma max_index_insert (fs : gmap string bytes) (n : N) (c : bytes) :
  (max_index (listing fs) < n)%N ->
  max_index (listing (<[output_name n := c]> fs)) = n.
Proof.
  intros Hn.
  rewrite (max_index_perm _ _ (listing_insert fs _ c (output_name_fresh fs n Hn))).
  rewrite max_index_cons, index_of_output_name. lia.
Qed.

End ScanFacts.
(** ** What the string operations compute *)

Section StringSpecs.

Import PyStr.

Lemma app_cons (c : ascii) (s t : string) : String c s ++ t = String c (s ++ t).
Proof. reflexivity. Qed.

Lemma startswith_spec (s p : string) :
  startswith s p = true <-> exists rest, s = p ++ rest.
Proof.
  revert s. induction p as [|c p IH]; intros s; simpl.
  - split; [intros _; exists s; reflexivity | reflexivity].
  - destruct s as [|d s].
    + split; [discriminate | intros [rest E]; discriminate].
    + destruct (Ascii.eqb_spec c d) as [<- | Hne].
      * rewrite IH. split; intros [rest E]; exists rest.
        -- rewrite app_cons. now f_equal.
        -- rewrite app_cons in E. now injection E.
      * split; [discriminate |]. intros [rest E]. rewrite app_cons in E.
        injection E as E _. congruence.
Qed.

Lemma contains_spec (s p : string) :
  contains s p = true <-> exists before rest, s = before ++ p ++ rest.
Proof.
  induction s as [|c s IH].
  - simpl. rewrite orb_false_r, startswith_spec. split.
    + intros [rest E]. exists "", rest. exact E.
    + intros (before & rest & E). exists rest.
      destruct before as [|b before]; [exact E | discriminate].
  - change (contains (String c s) p)
      with (startswith (String c s) p || contains s p).
    rewrite orb_true_iff, startswith_spec, IH. split.
    + intros [[rest E] | (before & rest & E)].
      * exists "", rest. exact E.
      * exists (String c before), rest. rewrite app_cons. now f_equal.
    + intros (before & rest & E). destruct before as [|b before].
      * left. exists rest. exact E.
      * right. exists before, rest. rewrite app_cons in E. now injection E.
Qed.

(** A decimal literal is read exactly when all its characters are ASCII
    digits. *)
Lemma uint_of_string_ascii_digits (s : string) :
  is_Some (NilEmpty.uint_of_string s) <-> ascii_digits s = true.
Proof.
  induction s as [|c s IH]; simpl.
  - split; [reflexivity | eauto].
  - destruct (NilEmpty.uint_of_string s) as [d|].
    + assert (Hs : ascii_digits s = true) by (apply IH; eauto).
      rewrite Hs, andb_true_r.
      destruct c as [[] [] [] [] [] [] [] []]; simpl;
        (split; [intros [x Hx]; first [reflexivity | discriminate]
                | intros Hc; first [discriminate | eauto]]).
    + assert (Hs : ascii_digits s = false).
      { destruct (ascii_digits s); [| reflexivity].
        destruct (proj2 IH eq_refl) as [x Hx]. discriminate. }
      rewrite Hs, andb_false_r.
      split; [| discriminate]. intros [x Hx].
      destruct c as [[] [] [] [] [] [] [] []]; discriminate.
Qed.

Lemma int_ok_iff (s : string) :
  (exists n, int s = Ok n) <-> s <> "" /\ ascii_digits s = true.
Proof.
  unfold int. destruct s as [|c s].
  - split; [intros [n Hn]; discriminate | intros [Hne _]; congruence].
  - rewrite <- uint_of_string_ascii_digits.
    destruct (NilEmpty.uint_of_string (String c s)) as [d|].
    + split; [intros _; split; [discriminate | eauto] | eauto].
    + split; [intros [n Hn]; discriminate | intros [_ [x Hx]]; discriminate].
Qed.

End StringSpecs.

(** ** The shape of the names the scan counts *)

Section ScanShape.

Import PyStr.

Lemma take_drop (n : nat) (s : string) : take n s ++ drop n s = s.
Proof.
  revert s. induction n as [|n IH]; intros s; [reflexivity |].
  destruct s as [|c s]; [reflexivity |]. simpl take. simpl drop.
  rewrite app_cons. now rewrite IH.
Qed.

Lemma lower_drop (n : nat) (s : string) : lower (drop n s) = drop n (lower s).
Proof.
  revert s. induction n as [|n IH]; intros s; [reflexivity |].
  destruct s as [|c s]; [reflexivity |]. simpl. apply IH.
Qed.

Lemma drop_app_plus (p s : string) (k : nat) :
  drop (String.length p + k) (p ++ s) = drop k s.
Proof. induction p as [|c p IH]; [reflexivity |]. simpl. exact IH. Qed.

Lemma length_drop (n : nat) (s : string) :
  String.length (drop n s) = (String.length s - n)%nat.
Proof.
  revert s. induction n as [|n IH]; intros s; simpl; [lia |].
  destruct s as [|c s]; [reflexivity |]. simpl. apply IH.
Qed.

Lemma ascii_digits_all_digit (s : string) :
  ascii_digits s = true -> all_digit s = true.
Proof.
  induction s as [|c s IH]; simpl; [reflexivity |].
  intros Hs. apply andb_prop in Hs as [Hc Hs]. rewrite (IH Hs), andb_true_r.
  unfold isdigit_char. now rewrite Hc.
Qed.

Lemma int_ok_isdigit (s : string) (n : N) : int s = Ok n -> isdigit s = true.
Proof.
  intros Hn. destruct (proj1 (int_ok_iff s) (ex_intro _ n Hn)) as [Hne Hd].
  destruct s as [|c s]; [congruence |]. now apply ascii_digits_all_digit.
Qed.

Lemma next_index_ok_inv (l : list string) (n : N) :
  next_index l = Ok n ->
  forallb readable l = true /\ n = (max_index l + 1)%N.
Proof.
  intros Hn. destruct (forallb readable l) eqn:Hl.
  - rewrite (next_index_ok l Hl) in Hn. split; [reflexivity | congruence].
  - destruct (next_index_raises l Hl) as [e He]. congruence.
Qed.

(** The shape of a name with a stem of at least one character that the
    filter of line 140 keeps. *)
Lemma is_existing_shape (f : string) :
  is_existing f = true -> stem f <> "" ->
  exists suffix, f = "generated_image" ++ stem f ++ suffix /\ lower suffix = ".png".
Proof.
  unfold is_existing, stem, slice, endswith. intros Hf Hstem.
  apply andb_prop in Hf as [Hstart Hend]. apply andb_prop in Hend as [_ Hend].
  apply String.eqb_eq in Hend.
  apply startswith_spec in Hstart as [rest ->].
  rewrite PyStrFacts.drop_app in *. rewrite PyStrFacts.length_app in *.
  rewrite PyStrFacts.lower_length, PyStrFacts.length_app in Hend.
  replace (String.length "generated_image" + String.length rest - 4
           - String.length "generated_image")%nat
    with (String.length rest - 4)%nat in * by lia.
  assert (Hlen : (5 <= String.length rest)%nat).
  { destruct (le_lt_dec 5 (String.length rest)) as [Hle | Hlt]; [exact Hle |].
    exfalso. apply Hstem.
    replace (String.length rest - 4)%nat with 0%nat by lia. reflexivity. }
  exists (drop (String.length rest - 4) rest). split.
  - now rewrite take_drop.
  - rewrite <- Hend, <- lower_drop. f_equal.
    replace (String.length "generated_image" + String.length rest
             - String.length ".png")%nat
      with (String.length "generated_image" + (String.length rest - 4))%nat
      by (simpl; lia).
    now rewrite drop_app_plus.
Qed.

Lemma shape_is_existing (digits suffix : string) :
  lower suffix = ".png" ->
  is_existing ("generated_image" ++ digits ++ suffix) = true
  /\ stem ("generated_image" ++ digits ++ suffix) = digits.
Proof.
  intros Hsuf.
  assert (Hlen : String.length suffix = 4%nat).
  { rewrite <- (PyStrFacts.lower_length suffix), Hsuf. reflexivity. }
  split.
  - unfold is_existing. apply andb_true_intro.
    split; [apply PyStrFacts.startswith_app |].
    rewrite !PyStrFacts.lower_app, Hsuf, <- PyStrFacts.app_assoc.
    apply PyStrFacts.endswith_app.
  - unfold stem, slice.
    rewrite PyStrFacts.drop_app, !PyStrFacts.length_app, Hlen.
    replace (String.length "generated_image" + (String.length digits + 4) - 4
             - String.length "generated_image")%nat
      with (String.length digits) by lia.
    apply PyStrFacts.take_app.
Qed.

Lemma index_of_counted (f : string) (i : N) : index_of f = Some i <-> counted f i.
Proof.
  unfold index_of, counted. split.
  - destruct (is_existing f) eqn:Hf; [| discriminate].
    destruct (isdigit (stem f)) eqn:Hd; [| discriminate]. simpl andb. cbv iota.
    destruct (int (stem f)) as [idx|e] eqn:Hint; [| discriminate].
    intros [= <-].
    assert (Hne : stem f <> "") by (intros E; rewrite E in Hd; discriminate).
    destruct (is_existing_shape f Hf Hne) as (suffix & Ef & Hsuf).
    exists (stem f), suffix. split; [exact Ef |]. split; [exact Hsuf |].
    split; [| exact Hint].
    apply (proj1 (int_ok_iff (stem f)) (ex_intro _ idx Hint)).
  - intros (digits & suffix & -> & Hsuf & _ & Hint).
    destruct (shape_is_existing digits suffix Hsuf) as [-> ->].
    now rewrite (int_ok_isdigit digits i Hint), Hint.
Qed.


End ScanShape.

(** ** Joining and splitting lines *)

Section JoinFacts.

Import PyStr.

Lemma join_cons (sep l : string) (l' : string) (ls : list string) :
  join sep (l :: l' :: ls) = l ++ sep ++ join sep (l' :: ls).
Proof. reflexivity. Qed.

Lemma concat_cons (x : string) (xs : list string) :
  String.concat "" (x :: xs) = x ++ String.concat "" xs.
Proof.
  destruct xs as [|y xs]; [| reflexivity].
  simpl. now rewrite PyStrFacts.app_nil_r.
Qed.

(** The code's join on line feeds is the concatenation with character 10
    between the lines. *)
Lemma join_joined (ls : list string) : join newline ls = Prompt.joined ls.
Proof.
  destruct ls as [|l ls]; [reflexivity |]. unfold Prompt.joined.
  revert l. induction ls as [|l' ls IH]; intros l.
  - simpl. now rewrite PyStrFacts.app_nil_r.
  - rewrite join_cons, IH. simpl List.map. rewrite concat_cons. reflexivity.
Qed.

Lemma split_lines_nonempty (s : string) : split_lines s <> [].
Proof.
  induction s as [|c s IH]; simpl; [discriminate |].
  destruct (Ascii.eqb c "010"); [discriminate |].
  destruct (split_lines s); [congruence | discriminate].
Qed.

Lemma split_lines_line (l rest : string) :
  no_line_feed l = true ->
  split_lines (l ++ String "010" rest) = l :: split_lines rest.
Proof.
  induction l as [|c l IH]; intros Hl.
  - reflexivity.
  - simpl in Hl. apply andb_prop in Hl as [Hc Hl].
    rewrite app_cons. simpl split_lines.
    destruct (Ascii.eqb c "010"); [discriminate |]. now rewrite (IH Hl).
Qed.

Lemma split_lines_last (l : string) : no_line_feed l = true -> split_lines l = [l].
Proof.
  induction l as [|c l IH]; intros Hl; [reflexivity |].
  simpl in Hl. apply andb_prop in Hl as [Hc Hl]. simpl.
  destruct (Ascii.eqb c "010"); [discriminate |]. now rewrite (IH Hl).
Qed.

(** Splitting what was joined gives the lines back, when no line holds a
    line feed. *)
Lemma split_lines_join (ls : list string) :
  ls <> [] -> forallb no_line_feed ls = true -> split_lines (join newline ls) = ls.
Proof.
  intros Hne Hls. destruct ls as [|l ls]; [congruence |]. clear Hne.
  revert l Hls. induction ls as [|l' ls IH]; intros l Hls.
  - simpl in Hls. rewrite andb_true_r in Hls. now apply split_lines_last.
  - rewrite join_cons. simpl in Hls. apply andb_prop in Hls as [Hl Hls].
    change (newline ++ join newline (l' :: ls))
      with (String "010" (join newline (l' :: ls))).
    rewrite (split_lines_line _ _ Hl). f_equal. apply IH. exact Hls.
Qed.

Lemma no_line_feed_app (s t : string) :
  no_line_feed (s ++ t) = no_line_feed s && no_line_feed t.
Proof.
  induction s as [|c s IH]; [reflexivity |].
  rewrite app_cons. simpl. rewrite IH. now rewrite andb_assoc.
Qed.

Lemma contains_app (before p rest : string) : contains (before ++ p ++ rest) p = true.
Proof. apply contains_spec. eauto. Qed.


End JoinFacts.

(** ** Facts about the handler's steps *)

Section HandlerFacts.

Context `{Collaborators}.

(** The save block, step by step. *)
Lemma save_generated_unfold (d : option bytes) (w : World) :
  save_generated d w
  = match Image_open (bytes_or_empty d) with
    | Raise e => (Raise e, w)
    | Ok gen_img =>
        match next_index (listing (files w)) with
        | Raise e => (Raise e, w)
        | Ok next_idx =>
            match Image_save_file gen_img (output_name next_idx) with
            | Raise e => (Raise e, w)
            | Ok content =>
                match Image_save_png gen_img with
                | Raise e => (Raise e, saved w (output_name next_idx) content)
                | Ok buffer =>
                    (Ok (Base64.b64encode buffer),
                     saved w (output_name next_idx) content)
                end
            end
        end
    end.
Proof.
  unfold save_generated. run. fold (listing (files w)). unfold saved.
  destruct (Image_open (bytes_or_empty d)) as [gen_img|e]; [| reflexivity].
  destruct (next_index (listing (files w))) as [next_idx|e]; [| reflexivity].
  destruct (Image_save_file gen_img (output_name next_idx)) as [content|e];
    [| reflexivity].
  destruct (Image_save_png gen_img) as [buffer|e]; reflexivity.
Qed.


Lemma save_generated_unscannable (d : option bytes) (w : World) :
  scannable (files w) = false -> exists e, save_generated d w = (Raise e, w).
Proof.
  intros Hscan. rewrite save_generated_unfold.
  destruct (Image_open (bytes_or_empty d)) as [gen_img|e]; [| eauto].
  destruct (next_index_raises _ Hscan) as [e ->]. eauto.
Qed.

(** What the save block does to the world: nothing, or one new file under
    the next index. *)
Lemma save_generated_world (d : option bytes) (w w' : World) (r : result string) :
  save_generated d w = (r, w') ->
  w' = w
  \/ exists img content,
       Image_open (bytes_or_empty d) = Ok img
       /\ scannable (files w) = true
       /\ Image_save_file img (output_name (max_index (listing (files w)) + 1))
          = Ok content
       /\ w' = saved w (output_name (max_index (listing (files w)) + 1)) content.
Proof.
  rewrite save_generated_unfold.
  destruct (Image_open (bytes_or_empty d)) as [gen_img|e]; [| intros [= _ <-]; now left].
  destruct (scannable (files w)) eqn:Hscan.
  - rewrite (next_index_ok _ Hscan).
    destruct (Image_save_file gen_img _) as [content|e] eqn:Hsave;
      [| intros [= _ <-]; now left].
    intros Hrun. right. exists gen_img, content.
    split; [reflexivity |]. split; [reflexivity |]. split; [exact Hsave |].
    destruct (Image_save_png gen_img); now injection Hrun as _ <-.
  - destruct (next_index_raises _ Hscan) as [e ->]. intros [= _ <-]. now left.
Qed.

(** When the save block completes, all four steps went through. *)
Lemma save_generated_ok_inv (d : option bytes) (b64 : string) (w w' : World) :
  save_generated d w = (Ok b64, w') ->
  exists img content buffer,
    Image_open (bytes_or_empty d) = Ok img
    /\ scannable (files w) = true
    /\ Image_save_file img (output_name (max_index (listing (files w)) + 1)) = Ok content
    /\ Image_save_png img = Ok buffer
    /\ b64 = Base64.b64encode buffer
    /\ w' = saved w (output_name (max_index (listing (files w)) + 1)) content.
Proof.
  rewrite save_generated_unfold.
  destruct (Image_open (bytes_or_empty d)) as [gen_img|e]; [| discriminate].
  destruct (scannable (files w)) eqn:Hscan.
  - rewrite (next_index_ok _ Hscan).
    destruct (Image_save_file gen_img _) as [content|e] eqn:Hsave; [| discriminate].
    destruct (Image_save_png gen_img) as [buffer|e] eqn:Hpng; [| discriminate].
    intros [= <- <-]. exists gen_img, content, buffer. repeat split; assumption.
  - destruct (next_index_raises _ Hscan) as [e ->]. discriminate.
Qed.

Lemma save_generated_ok (d : option bytes) (img : Image) (content buffer : bytes)
    (w : World) :
  Image_open (bytes_or_empty d) = Ok img ->
  scannable (files w) = true ->
  Image_save_file img (output_name (max_index (listing (files w)) + 1)) = Ok content ->
  Image_save_png img = Ok buffer ->
  save_generated d w
  = (Ok (Base64.b64encode buffer),
     saved w (output_name (max_index (listing (files w)) + 1)) content).
Proof.
  intros Himg Hscan Hsave Hpng.
  now rewrite save_generated_unfold, Himg, (next_index_ok _ Hscan), Hsave, Hpng.
Qed.

(** The save block raises exactly when one of its four steps does. *)
Lemma save_generated_raises (d : option bytes) (w : World) (e : Exception) :
  (exists w', save_generated d w = (Raise e, w')) <-> save_step_raises d w e.
Proof.
  rewrite save_generated_unfold. unfold save_step_raises. split.
  - intros [w' Hrun].
    destruct (Image_open (bytes_or_empty d)) as [img|e0];
      [| injection Hrun as -> _; now left].
    right. exists img. split; [reflexivity |].
    destruct (next_index (listing (files w))) as [n|e1];
      [| injection Hrun as -> _; now left].
    right. exists n. split; [reflexivity |].
    destruct (Image_save_file img (output_name n)) as [content|e2];
      [| injection Hrun as -> _; now left].
    right. exists content. split; [reflexivity |].
    destruct (Image_save_png img) as [buffer|e3]; [discriminate |].
    now injection Hrun as -> _.
  - intros [-> | (img & -> & [-> | (n & -> & [-> | (content & -> & ->)])])]; eauto.
Qed.

Lemma process_part_text (part : Part) (c : ascii) (t txt : string)
    (b : option string) (w : World) :
  text part = Some (String c t) ->
  process_part (txt, b) part w = (Ok (txt ++ String c t, b), w).
Proof. intros Ht. unfold process_part. now rewrite Ht. Qed.

Lemma process_part_image (part : Part) (d : option bytes) (txt : string)
    (b : option string) (w : World) :
  image_data part = Some d ->
  process_part (txt, b) part w
  = match save_generated d w with
    | (Ok b64, w') => (Ok (txt, Some b64), w')
    | (Raise _, w') => (Ok (txt, Some (Base64.b64encode (bytes_or_empty d))), w')
    end.
Proof.
  unfold image_data, process_part. intros Hd.
  destruct (text part) as [[|c t]|]; try discriminate;
    destruct (inline_data part) as [blob|]; try discriminate;
    injection Hd as <-; run;
    destruct (save_generated (data blob) w) as [[b64|e] w']; reflexivity.
Qed.

Lemma build_contents_value (prompt : string) (user_image : Image)
    (reference : option UploadFile) (w : World) :
  build_contents prompt user_image reference w
  = (Ok (contents_of prompt user_image reference), w).
Proof.
  unfold build_contents, contents_of. destruct reference as [[[rb|e]]|]; run; simpl.
  - destruct (Image_open rb); reflexivity.
  - reflexivity.
  - reflexivity.
Qed.

End HandlerFacts.

(** ** Facts about whole runs *)

Section RunFacts.

Context `{Collaborators}.

Lemma files_kept_refl (w : World) : files_kept w w.
Proof. intros f c Hf. exact Hf. Qed.

Lemma new_files_above_refl (w : World) : new_files_above w w.
Proof. intros f Hnone [c Hc]. congruence. Qed.

Lemma files_kept_trans (w1 w2 w3 : World) :
  files_kept w1 w2 -> files_kept w2 w3 -> files_kept w1 w3.
Proof. intros H12 H23 f c Hf. apply H23, H12, Hf. Qed.

Lemma new_files_above_trans (w1 w2 w3 : World) :
  files_kept w1 w2 -> new_files_above w1 w2 -> new_files_above w2 w3 ->
  new_files_above w1 w3.
Proof.
  intros K12 N12 N23 f Hnone Hsome.
  destruct (files w2 !! f) as [c|] eqn:E2.
  - apply N12; [exact Hnone | eauto].
  - destruct (N23 f E2 Hsome) as (n & -> & Hn). exists n. split; [reflexivity |].
    intros g i [c Hg] Hi. apply (Hn g i); [| exact Hi].
    exists c. apply K12, Hg.
Qed.

(** One save: the new file is the only change, and its index is above
    every index in the directory. *)
Lemma saved_frame (w : World) (content : bytes) :
  files w !! output_name (max_index (listing (files w)) + 1) = None
  /\ files_kept w (saved w (output_name (max_index (listing (files w)) + 1)) content)
  /\ new_files_above w
       (saved w (output_name (max_index (listing (files w)) + 1)) content).
Proof.
  assert (Hfresh : files w !! output_name (max_index (listing (files w)) + 1) = None)
    by (apply output_name_fresh; lia).
  split; [exact Hfresh |]. split.
  - intros f c Hf. simpl. rewrite lookup_insert_ne; [exact Hf | congruence].
  - intros f Hnone Hsome. simpl in Hsome.
    destruct (decide (output_name (max_index (listing (files w)) + 1) = f))
      as [<- | Hne].
    + eexists. split; [reflexivity |]. intros g i Hg Hi.
      apply elem_of_listing in Hg.
      pose proof (max_index_upper _ _ _ Hg Hi). lia.
    + rewrite lookup_insert_ne in Hsome by exact Hne.
      destruct Hsome as [c Hc]. congruence.
Qed.

Lemma process_part_no_image (part : Part) (txt : string) (b : option string)
    (w : World) :
  image_data part = None ->
  process_part (txt, b) part w = (Ok (txt ++ text_of part, b), w).
Proof.
  unfold image_data, text_of, process_part. intros Hd.
  destruct (text part) as [[|c t]|]; try destruct (inline_data part);
    try discriminate; try reflexivity;
    now rewrite PyStrFacts.app_nil_r.
Qed.

(** The world after one part: on a directory the scan can read, the
    part's file is added under the next index when there is one. *)
Definition after_part (part : Part) (w : World) : World :=
  if scannable (files w) then
    match file_of part (max_index (listing (files w)) + 1) with
    | Some content => saved w (output_name (max_index (listing (files w)) + 1)) content
    | None => w
    end
  else w.

(** One part: never an exception; the text is added; the world moves to
    [after_part]; an image part sets the image string, another part leaves
    it. *)
Lemma process_part_step (txt : string) (b : option string) (part : Part) (w : World) :
  exists b',
    process_part (txt, b) part w = (Ok (txt ++ text_of part, b'), after_part part w)
    /\ (image_data part = None -> b' = b)
    /\ (forall d, image_data part = Some d ->
          exists s, b' = Some s /\ image_base64_options d s).
Proof.
  unfold after_part, file_of, decoded_image.
  destruct (image_data part) as [d|] eqn:Hd.
  - rewrite (process_part_image part d txt b w Hd).
    assert (Htext : text_of part = "").
    { unfold image_data in Hd. unfold text_of.
      destruct (text part) as [[|c t]|]; [reflexivity | discriminate | reflexivity]. }
    rewrite Htext, PyStrFacts.app_nil_r, save_generated_unfold.
    assert (Hraw : image_base64_options d (Base64.b64encode (bytes_or_empty d)))
      by now left.
    destruct (Image_open (bytes_or_empty d)) as [img|e] eqn:Himg.
    + destruct (scannable (files w)) eqn:Hscan.
      * rewrite (next_index_ok _ Hscan).
        destruct (Image_save_file img _) as [content|e] eqn:Hsave.
        -- destruct (Image_save_png img) as [buffer|e] eqn:Hpng.
           ++ eexists. split; [reflexivity |]. split; [discriminate |].
              intros d' [= <-]. eexists. split; [reflexivity |]. right. eauto.
           ++ eexists. split; [reflexivity |]. split; [discriminate |].
              intros d' [= <-]. eauto.
        -- eexists. split; [reflexivity |]. split; [discriminate |].
           intros d' [= <-]. eauto.
      * destruct (next_index_raises _ Hscan) as [e ->].
        eexists. split; [reflexivity |]. split; [discriminate |].
        intros d' [= <-]. eauto.
    + eexists. split; [destruct (scannable (files w)); reflexivity |].
      split; [discriminate |]. intros d' [= <-]. eauto.
  - rewrite (process_part_no_image part txt b w Hd).
    exists b. split; [destruct (scannable (files w)); reflexivity |].
    split; [reflexivity | discriminate].
Qed.

Lemma after_part_frame (part : Part) (w : World) :
  api_calls (after_part part w) = api_calls w
  /\ files_kept w (after_part part w)
  /\ new_files_above w (after_part part w).
Proof.
  unfold after_part. destruct (scannable (files w));
    [destruct (file_of part _) as [content|] |];
    try (split; [reflexivity |];
         split; [apply files_kept_refl | apply new_files_above_refl]).
  destruct (saved_frame w content) as (_ & K & N).
  split; [reflexivity |]. split; assumption.
Qed.

Lemma process_part_frame (acc : string * option string) (part : Part) (w : World) :
  exists out w', process_part acc part w = (Ok out, w')
    /\ api_calls w' = api_calls w /\ files_kept w w' /\ new_files_above w w'.
Proof.
  destruct acc as [txt b].
  destruct (process_part_step txt b part w) as (b' & -> & _).
  eexists _, _. split; [reflexivity |]. apply after_part_frame.
Qed.

Lemma process_parts_cons (p : Part) (ps : list Part) (acc : string * option string)
    (w : World) :
  process_parts (p :: ps) acc w
  = match process_part acc p w with
    | (Ok acc1, w1) => process_parts ps acc1 w1
    | (Raise e, w1) => (Raise e, w1)
    end.
Proof. reflexivity. Qed.

Lemma process_parts_frame (ps : list Part) (acc : string * option string) (w : World) :
  exists out w', process_parts ps acc w = (Ok out, w')
    /\ api_calls w' = api_calls w /\ files_kept w w' /\ new_files_above w w'.
Proof.
  revert acc w. induction ps as [|part ps IH]; intros acc w.
  - exists acc, w. split; [reflexivity |]. split; [reflexivity |].
    split; [apply files_kept_refl | apply new_files_above_refl].
  - destruct (process_part_frame acc part w) as (out1 & w1 & E1 & A1 & K1 & N1).
    destruct (IH out1 w1) as (out2 & w2 & E2 & A2 & K2 & N2).
    exists out2, w2. rewrite process_parts_cons, E1. split; [exact E2 |].
    split; [congruence |]. split.
    + eapply files_kept_trans; eassumption.
    + eapply new_files_above_trans; eassumption.
Qed.

(** The body of the outer [try], step by step. *)
Lemma generate_tattoo_body_unfold (request : Request) (photo : UploadFile)
    (reference : option UploadFile)
    (style theme color_mode physical_attributes : string) (w : World) :
  generate_tattoo_body request photo reference style theme color_mode
    physical_attributes w
  = match read photo with
    | Raise e => (Raise e, w)
    | Ok image_bytes =>
        match Image_open image_bytes with
        | Raise e => (Raise e, w)
        | Ok user_image =>
            match Image_save_png user_image with
            | Raise e => (Raise e, w)
            | Ok upload_buffer =>
                let prompt :=
                  Prompt.prompt reference theme style color_mode physical_attributes in
                let contents := contents_of prompt user_image reference in
                let w1 := called w "gemini-2.5-flash-image" contents in
                match generate_content "gemini-2.5-flash-image" contents with
                | Raise e => (Raise e, w1)
                | Ok response =>
                    match process_parts (parts_of response) ("", None) w1 with
                    | (Ok out, w2) =>
                        (render request (Base64.b64encode upload_buffer)
                           style theme color_mode physical_attributes
                           (fst out) (snd out),
                         w2)
                    | (Raise e, w2) => (Raise e, w2)
                    end
                end
            end
        end
    end.
Proof.
  unfold generate_tattoo_body, bind at 1, lift at 1.
  destruct (read photo) as [image_bytes|e]; [| reflexivity].
  unfold bind at 1, lift at 1.
  destruct (Image_open image_bytes) as [user_image|e]; [| reflexivity].
  unfold bind at 1, lift at 1.
  destruct (Image_save_png user_image) as [upload_buffer|e]; [| reflexivity].
  unfold bind at 1. rewrite build_contents_value.
  unfold bind at 1, call_generate_content at 1. cbv zeta. unfold called.
  destruct (generate_content _ _) as [response|e]; [| reflexivity].
  unfold bind at 1.
  destruct (process_parts _ _ _) as [[out|e] w2]; [| reflexivity].
  unfold lift. now destruct (render _ _ _ _ _ _ _ _).
Qed.

(** The outer [try] and its handler. *)
Lemma generate_tattoo_outer (request : Request) (photo : UploadFile)
    (reference : option UploadFile)
    (style theme color_mode physical_attributes : string) (w : World) :
  generate_tattoo request photo reference style theme color_mode physical_attributes w
  = match generate_tattoo_body request photo reference style theme color_mode
            physical_attributes w with
    | (Ok resp, w') => (Ok resp, w')
    | (Raise e, w') =>
        (templates_TemplateResponse "index.html" request None (Some (str e)), w')
    end.
Proof. reflexivity. Qed.

(** The body changes the world by one call on record at most, and by what
    the loop over the parts does. *)
Lemma generate_tattoo_body_world (request : Request) (photo : UploadFile)
    (reference : option UploadFile)
    (style theme color_mode physical_attributes : string) (w w' : World)
    (r : result HTTPResponse) :
  generate_tattoo_body request photo reference style theme color_mode
    physical_attributes w = (r, w') ->
  (w' = w /\ exists e, r = Raise e)
  \/ exists image_bytes user_image upload_buffer,
       read photo = Ok image_bytes
       /\ Image_open image_bytes = Ok user_image
       /\ Image_save_png user_image = Ok upload_buffer
       /\ ((w' = called w "gemini-2.5-flash-image"
                   (contents_of
                      (Prompt.prompt reference theme style color_mode
                         physical_attributes) user_image reference)
            /\ exists e, r = Raise e)
           \/ exists response out,
                generate_content "gemini-2.5-flash-image"
                  (contents_of
                     (Prompt.prompt reference theme style color_mode
                        physical_attributes) user_image reference) = Ok response
                /\ process_parts (parts_of response) ("", None)
                     (called w "gemini-2.5-flash-image"
                        (contents_of
                           (Prompt.prompt reference theme style color_mode
                              physical_attributes) user_image reference))
                   = (Ok out, w')
                /\ r = render request (Base64.b64encode upload_buffer)
                         style theme color_mode physical_attributes
                         (fst out) (snd out)).
Proof.
  rewrite generate_tattoo_body_unfold.
  destruct (read photo) as [image_bytes|e]; [| intros [= <- <-]; left; eauto].
  destruct (Image_open image_bytes) as [user_image|e] eqn:Himg;
    [| intros [= <- <-]; left; eauto].
  destruct (Image_save_png user_image) as [upload_buffer|e] eqn:Hpng;
    [| intros [= <- <-]; left; eauto].
  cbv zeta. intros Hrun. right. exists image_bytes, user_image, upload_buffer.
  split; [reflexivity |]. split; [exact Himg |]. split; [exact Hpng |].
  destruct (generate_content _ _) as [response|e] eqn:Hapi;
    [| injection Hrun as <- <-; left; eauto].
  destruct (process_parts_frame (parts_of response) ("", None)
              (called w "gemini-2.5-flash-image"
                 (contents_of
                    (Prompt.prompt reference theme style color_mode physical_attributes)
                    user_image reference)))
    as (out & w2 & Hparts & _).
  rewrite Hparts in Hrun. injection Hrun as <- <-.
  right. exists response, out. split; [reflexivity |]. split; [exact Hparts | reflexivity].
Qed.

End RunFacts.

(** ** Facts about the loop over the parts *)

Section LoopFacts.

Context `{Collaborators}.

Lemma text_of_image_part (part : Part) (d : option bytes) :
  image_data part = Some d -> text_of part = "".
Proof.
  unfold image_data, text_of.
  destruct (text part) as [[|c t]|]; [reflexivity | discriminate | reflexivity].
Qed.

Lemma process_parts_app (ps1 ps2 : list Part) (acc : string * option string)
    (w : World) :
  process_parts (ps1 ++ ps2)%list acc w
  = match process_parts ps1 acc w with
    | (Ok acc1, w1) => process_parts ps2 acc1 w1
    | (Raise e, w1) => (Raise e, w1)
    end.
Proof.
  revert acc w. induction ps1 as [|p ps1 IH]; intros acc w; [reflexivity |].
  change ((p :: ps1) ++ ps2)%list with (p :: (ps1 ++ ps2))%list.
  rewrite !process_parts_cons.
  destruct (process_part acc p w) as [[acc1|e] w1]; [apply IH | reflexivity].
Qed.

(** Parts without image data only add their text. *)
Lemma process_parts_no_image (ps : list Part) (txt : string) (b : option string)
    (w : World) :
  Forall (fun p => image_data p = None) ps ->
  process_parts ps (txt, b) w = (Ok (txt ++ all_text ps, b), w).
Proof.
  intros Hps. revert txt. induction Hps as [|p ps Hp _ IH]; intros txt.
  - simpl. unfold ret. now rewrite PyStrFacts.app_nil_r.
  - rewrite process_parts_cons, (process_part_no_image p txt b w Hp), IH.
    now rewrite PyStrFacts.app_assoc.
Qed.

(** The loop as a whole: the texts are added in order, and the image
    string is null exactly when it was and no part is an image part. *)
Lemma process_parts_text_image (ps : list Part) (txt : string) (b : option string)
    (w : World) :
  exists b' w',
    process_parts ps (txt, b) w = (Ok (txt ++ all_text ps, b'), w')
    /\ (b' = None <-> b = None /\ Forall (fun p => image_data p = None) ps).
Proof.
  revert txt b w. induction ps as [|p ps IH]; intros txt b w.
  - exists b, w. split.
    + simpl. unfold ret. now rewrite PyStrFacts.app_nil_r.
    + split; [intros ->; split; [reflexivity | constructor] | now intros [-> _]].
  - rewrite process_parts_cons.
    change (all_text (p :: ps)) with (text_of p ++ all_text ps).
    destruct (process_part_step txt b p w) as (b1 & -> & Hnone & Hsome).
    destruct (IH (txt ++ text_of p) b1 (after_part p w)) as (b' & w' & -> & Hb').
    exists b', w'. rewrite PyStrFacts.app_assoc. split; [reflexivity |].
    rewrite Hb'. destruct (image_data p) as [d|] eqn:Hd.
    + destruct (Hsome d eq_refl) as (s & -> & _).
      split; [intros [? _]; discriminate | intros [_ Hall]; inversion Hall; congruence].
    + rewrite (Hnone eq_refl). split.
      * intros [-> Hall]. split; [reflexivity | now constructor].
      * intros [-> Hall]. inversion Hall. now split.
Qed.

(** The last image part decides the image string. *)
Lemma process_parts_last_image (before after : list Part) (p : Part)
    (d : option bytes) (acc out : string * option string) (w w' : World) :
  image_data p = Some d ->
  Forall (fun q => image_data q = None) after ->
  process_parts (before ++ p :: after) acc w = (Ok out, w') ->
  exists s, snd out = Some s /\ image_base64_options d s.
Proof.
  intros Hp Hafter. rewrite process_parts_app.
  destruct (process_parts_frame before acc w) as ([txt1 b1] & w1 & -> & _).
  rewrite process_parts_cons.
  destruct (process_part_step txt1 b1 p w1) as (b2 & -> & _ & Hsome).
  destruct (Hsome d Hp) as (s & -> & Hs).
  rewrite (process_parts_no_image after _ _ _ Hafter). intros [= <- _].
  exists s. split; [reflexivity | exact Hs].
Qed.

Lemma persist_lookup_below (contents : list bytes) (m n : N) (fs : gmap string bytes) :
  (n <= m)%N -> persist m contents fs !! output_name n = fs !! output_name n.
Proof.
  revert m fs. induction contents as [|c contents IH]; intros m fs Hn; [reflexivity |].
  simpl. rewrite IH by lia. apply lookup_insert_ne.
  intros E. apply output_name_inj in E. lia.
Qed.

Lemma persist_lookup (contents : list bytes) (m : N) (fs : gmap string bytes)
    (k : nat) (c : bytes) :
  contents !! k = Some c ->
  persist m contents fs !! output_name (m + 1 + N.of_nat k) = Some c.
Proof.
  revert m fs k. induction contents as [|c0 contents IH]; intros m fs k Hk;
    [discriminate |].
  change (persist m (c0 :: contents) fs)
    with (persist (m + 1) contents (<[output_name (m + 1) := c0]> fs)).
  destruct k as [|k].
  - injection Hk as ->. rewrite N.add_0_r, persist_lookup_below by lia.
    apply lookup_insert_eq.
  - replace (m + 1 + N.of_nat (S k))%N with (m + 1 + 1 + N.of_nat k)%N by lia.
    apply IH, Hk.
Qed.

Lemma persist_other (contents : list bytes) (m : N) (fs : gmap string bytes)
    (f : string) :
  (forall n, f <> output_name n) -> persist m contents fs !! f = fs !! f.
Proof.
  revert m fs. induction contents as [|c contents IH]; intros m fs Hf; [reflexivity |].
  simpl. rewrite IH by exact Hf. apply lookup_insert_ne. apply not_eq_sym, Hf.
Qed.

(** The whole loop on a directory the scan can read: the files written
    are those of [written_files], under the indices that follow the
    greatest one. *)
Lemma process_parts_persists (ps : list Part) (acc : string * option string)
    (w : World) :
  scannable (files w) = true ->
  exists out,
    process_parts ps acc w
    = (Ok out,
       {| files := persist (max_index (listing (files w)))
                     (written_files (max_index (listing (files w))) ps) (files w);
          api_calls := api_calls w |}).
Proof.
  revert acc w. induction ps as [|p ps IH]; intros acc w Hscan.
  - exists acc. simpl. unfold ret. now destruct w.
  - rewrite process_parts_cons. destruct acc as [txt b].
    destruct (process_part_step txt b p w) as (b1 & -> & _).
    unfold after_part. rewrite Hscan. simpl written_files.
    destruct (file_of p (max_index (listing (files w)) + 1)) as [content|].
    + destruct (saved_frame w content) as (Hfresh & _ & _).
      destruct (IH (txt ++ text_of p, b1)
                  (saved w (output_name (max_index (listing (files w)) + 1)) content))
        as [out Hout].
      { simpl. now rewrite scannable_insert. }
      exists out. rewrite Hout.
      simpl files. rewrite max_index_insert by lia. reflexivity.
    + apply IH, Hscan.
Qed.

End LoopFacts.

(** ** The properties of the specification *)

Section Claims.

Context `{Collaborators}.

(** Closes a goal [s <> t] between strings that differ in a character
    before any variable part. *)
Ltac differ := let E := fresh in intros E; cbv in E; congruence.

Lemma lines_spec_lines (reference : option UploadFile)
    (theme style color_mode physical_attributes : string) :
  Prompt.lines reference theme style color_mode physical_attributes
  = Prompt.spec_lines (has_reference reference) theme style color_mode physical_attributes.
Proof. destruct reference, theme, style, color_mode, physical_attributes; reflexivity. Qed.

(** With a reference and a non-empty theme, the lines hold the reference
    line and the supplementary theme line, and not the general one. *)
Lemma spec_lines_with_reference (c : ascii) (theme style color_mode physical_attributes : string) :
  Prompt.spec_lines true (String c theme) style color_mode physical_attributes !! 4%nat
  = Some Prompt.reference_line
  /\ Prompt.spec_lines true (String c theme) style color_mode physical_attributes !! 5%nat
     = Some (Prompt.theme_supplementary (String c theme))
  /\ Prompt.theme_general (String c theme)
     ∉ Prompt.spec_lines true (String c theme) style color_mode physical_attributes.
Proof.
  split; [reflexivity |]. split; [reflexivity |].
  destruct style, color_mode, physical_attributes;
    cbv [Prompt.spec_lines Prompt.optional_lines Prompt.preamble Prompt.trailing_pair
         Prompt.line_if negb String.eqb app];
    rewrite ?not_elem_of_cons; repeat split; try differ; apply not_elem_of_nil.
Qed.

Lemma spec_lines_without_reference (c : ascii)
    (theme style color_mode physical_attributes : string) :
  Prompt.spec_lines false (String c theme) style color_mode physical_attributes !! 4%nat
  = Some (Prompt.theme_general (String c theme))
  /\ Prompt.theme_supplementary (String c theme)
     ∉ Prompt.spec_lines false (String c theme) style color_mode physical_attributes.
Proof.
  split; [reflexivity |].
  destruct style, color_mode, physical_attributes;
    cbv [Prompt.spec_lines Prompt.optional_lines Prompt.preamble Prompt.trailing_pair
         Prompt.line_if negb String.eqb app];
    rewrite ?not_elem_of_cons; repeat split; try differ; apply not_elem_of_nil.
Qed.

Lemma line_if_no_line_feed (present : bool) (label field : string) :
  no_line_feed label = true -> no_line_feed field = true ->
  forallb no_line_feed (Prompt.line_if present (label ++ field)) = true.
Proof.
  intros Hl Hf. destruct present; [| reflexivity].
  simpl. now rewrite no_line_feed_app, Hl, Hf.
Qed.

Lemma spec_lines_no_line_feed (has_ref : bool)
    (theme style color_mode physical_attributes : string) :
  no_line_feed theme = true -> no_line_feed style = true ->
  no_line_feed color_mode = true -> no_line_feed physical_attributes = true ->
  forallb no_line_feed
    (Prompt.spec_lines has_ref theme style color_mode physical_attributes) = true.
Proof.
  intros Ht Hs Hc Hp. unfold Prompt.spec_lines, Prompt.optional_lines.
  rewrite !forallb_app.
  unfold Prompt.style_line, Prompt.color_mode_line, Prompt.physical_attributes_line.
  rewrite !line_if_no_line_feed by (reflexivity || assumption).
  assert (Htheme : forallb no_line_feed
            (Prompt.line_if (negb (String.eqb theme ""))
               (if has_ref then Prompt.theme_supplementary theme
                else Prompt.theme_general theme)) = true).
  { destruct has_ref; apply line_if_no_line_feed; (reflexivity || assumption). }
  rewrite Htheme. now destruct has_ref.
Qed.

(** C1, as amended.  Whatever the reference upload and the four fields
    are, the list [lines] the handler builds is the fixed preamble, then
    the reference line exactly when a reference was uploaded, the theme
    line exactly when [theme] is non-empty, the style line exactly when
    [style] is non-empty, the colour-mode line exactly when [color_mode] is
    non-empty, the size/placement line exactly when [physical_attributes]
    is non-empty, then an empty line, and last the trailing instruction
    pair, in this order.  The prompt is these lines with a line feed
    between two of them: splitting it at the line feeds gives the lines
    back when no field holds a line feed.  Building it raises nothing: it
    is a total function. *)
Theorem prompt_lines_as_specified (reference : option UploadFile)
    (theme style color_mode physical_attributes : string) :
  Prompt.lines reference theme style color_mode physical_attributes
  = Prompt.spec_lines (has_reference reference) theme style color_mode physical_attributes
  /\ Prompt.prompt reference theme style color_mode physical_attributes
     = Prompt.joined
         (Prompt.spec_lines (has_reference reference) theme style color_mode
            physical_attributes)
  /\ (no_line_feed theme = true -> no_line_feed style = true ->
      no_line_feed color_mode = true -> no_line_feed physical_attributes = true ->
      PyStr.split_lines
        (Prompt.prompt reference theme style color_mode physical_attributes)
      = Prompt.spec_lines (has_reference reference) theme style color_mode
          physical_attributes).
Proof.
  split; [apply lines_spec_lines |]. unfold Prompt.prompt. rewrite lines_spec_lines.
  split; [apply join_joined |].
  intros Ht Hs Hc Hp. apply split_lines_join.
  - discriminate.
  - now apply spec_lines_no_line_feed.
Qed.

(** C4.  With a non-empty theme, the theme line reads "supplementary
    details ..." when a reference was uploaded and "general description
    ..." when none was; it stands right after the preamble and the
    reference line, and the other phrasing is nowhere in the prompt's
    lines. *)
Theorem theme_line_phrasing (reference : option UploadFile)
    (theme style color_mode physical_attributes : string) :
  theme <> "" ->
  if has_reference reference
  then Prompt.lines reference theme style color_mode physical_attributes !! 5%nat
       = Some (Prompt.theme_supplementary theme)
       /\ Prompt.theme_general theme
          ∉ Prompt.lines reference theme style color_mode physical_attributes
  else Prompt.lines reference theme style color_mode physical_attributes !! 4%nat
       = Some (Prompt.theme_general theme)
       /\ Prompt.theme_supplementary theme
          ∉ Prompt.lines reference theme style color_mode physical_attributes.
Proof.
  intros Htheme. rewrite lines_spec_lines.
  destruct theme as [|c theme]; [congruence |].
  destruct reference; simpl has_reference.
  - destruct (spec_lines_with_reference c theme style color_mode physical_attributes)
      as (_ & H5 & Hnot). split; assumption.
  - apply spec_lines_without_reference.
Qed.



(** X2.  The same over a whole request: whatever the request is and however it
    ends, the files that were in the directory are unchanged, and every
    new file has an index above theirs. *)
Lemma generate_tattoo_keeps_files (request : Request) (photo : UploadFile)
    (reference : option UploadFile)
    (style theme color_mode physical_attributes : string) (w w' : World)
    (r : result HTTPResponse) :
  generate_tattoo request photo reference style theme color_mode physical_attributes w
  = (r, w') ->
  files_kept w w' /\ new_files_above w w'.
Proof.
  rewrite generate_tattoo_outer.
  destruct (generate_tattoo_body _ _ _ _ _ _ _ w) as [r0 w0] eqn:Hbody.
  intros Hrun. assert (w' = w0) as -> by (destruct r0; now injection Hrun).
  clear Hrun.
  destruct (generate_tattoo_body_world _ _ _ _ _ _ _ _ _ _ Hbody)
    as [[-> _] | (ib & ui & ub & _ & _ & _ & [[-> _] | (response & out & _ & Hparts & _)])].
  - split; [apply files_kept_refl | apply new_files_above_refl].
  - split; [exact (files_kept_refl w) | exact (new_files_above_refl w)].
  - destruct (process_parts_frame (parts_of response) ("", None)
                (called w "gemini-2.5-flash-image"
                   (contents_of
                      (Prompt.prompt reference theme style color_mode
                         physical_attributes) ui reference)))
      as (out' & w2 & Hparts' & _ & K & N).
    rewrite Hparts in Hparts'. injection Hparts' as _ <-. split; [exact K | exact N].
Qed.

Lemma template_response_cases (name : string) (request : Request)
    (context_result : option ResultContext) (context_error : option string) :
  (exists page, template_render name request context_result context_error = Ok page
     /\ templates_TemplateResponse name request context_result context_error
        = Ok (TemplateResponse name context_result context_error))
  \/ (exists e, template_render name request context_result context_error = Raise e
        /\ templates_TemplateResponse name request context_result context_error
           = Raise e).
Proof.
  unfold templates_TemplateResponse.
  destruct (template_render name request context_result context_error) as [page|e];
    [left | right]; eauto.
Qed.

Lemma render_json (request : Request) (uploaded : string)
    (style theme color_mode physical_attributes txt : string) (b : option string) :
  PyStr.contains (accept_header request) "application/json" = true ->
  render request uploaded style theme color_mode physical_attributes txt b
  = Ok (JSONResponse txt b).
Proof. intros Haccept. unfold render. now rewrite Haccept. Qed.

(** A response that [render] gives reports a result and shows [b] as the
    generated image. *)
Lemma response_image_render (request : Request) (uploaded : string)
    (style theme color_mode physical_attributes txt : string) (b : option string)
    (resp : HTTPResponse) :
  render request uploaded style theme color_mode physical_attributes txt b = Ok resp ->
  response_image resp = Some b /\ is_success resp = true.
Proof.
  unfold render. destruct (PyStr.contains _ _).
  - intros [= <-]. split; reflexivity.
  - destruct (template_response_cases "index.html" request
                (Some {| uploaded_image_base64 := uploaded;
                         generated_image_base64 := b;
                         style := style; theme := theme; color_mode := color_mode;
                         size := physical_attributes |}) None)
      as [(page & _ & ->) | (e & _ & ->)]; [| discriminate].
    intros [= <-]. split; reflexivity.
Qed.

(** When [render] raises, the client did not ask for JSON and it is the
    result page that could not be built. *)
Lemma render_raises (request : Request) (uploaded : string)
    (style theme color_mode physical_attributes txt : string) (b : option string)
    (e : Exception) :
  render request uploaded style theme color_mode physical_attributes txt b = Raise e ->
  PyStr.contains (accept_header request) "application/json" = false
  /\ exists context, template_render "index.html" request (Some context) None = Raise e.
Proof.
  unfold render. destruct (PyStr.contains _ _); [discriminate |].
  unfold templates_TemplateResponse.
  destruct (template_render _ _ _ _) as [page|e0] eqn:Hpage; [discriminate |].
  intros [= <-]. split; [reflexivity |]. eauto.
Qed.


(** C3, as amended.  An exception that reaches the outer [try] is answered
    by building the page template with no result and [str(e)] as the error,
    whatever the [Accept] header says; when that page can be built, it is
    the handler's response, and the world is as the body left it.  A body
    that ends without an exception gives its own response.  The
    exceptions that reach the outer [try] are those of five places, and no
    other: reading the photo, decoding it, encoding it again as PNG, the
    call to the model, and building the result page; the two inner [try]
    blocks keep their own.  The handler itself raises exactly when
    building the error page raises: that call stands in the [except]
    clause, outside any [try]. *)
Theorem generate_tattoo_reports_exceptions (request : Request) (photo : UploadFile)
    (reference : option UploadFile)
    (style theme color_mode physical_attributes : string) (w : World) :
  (forall e w1,
     generate_tattoo_body request photo reference style theme color_mode
       physical_attributes w = (Raise e, w1) ->
     generate_tattoo request photo reference style theme color_mode
       physical_attributes w
     = (templates_TemplateResponse "index.html" request None (Some (str e)), w1))
  /\ (forall e w1 page,
        generate_tattoo_body request photo reference style theme color_mode
          physical_attributes w = (Raise e, w1) ->
        template_render "index.html" request None (Some (str e)) = Ok page ->
        generate_tattoo request photo reference style theme color_mode
          physical_attributes w
        = (Ok (TemplateResponse "index.html" None (Some (str e))), w1))
  /\ (forall resp w1,
        generate_tattoo_body request photo reference style theme color_mode
          physical_attributes w = (Ok resp, w1) ->
        generate_tattoo request photo reference style theme color_mode
          physical_attributes w = (Ok resp, w1))
  /\ (forall e,
        read photo = Raise e ->
        generate_tattoo_body request photo reference style theme color_mode
          physical_attributes w = (Raise e, w))
  /\ (forall image_bytes e,
        read photo = Ok image_bytes -> Image_open image_bytes = Raise e ->
        generate_tattoo_body request photo reference style theme color_mode
          physical_attributes w = (Raise e, w))
  /\ (forall image_bytes user_image e,
        read photo = Ok image_bytes -> Image_open image_bytes = Ok user_image ->
        Image_save_png user_image = Raise e ->
        generate_tattoo_body request photo reference style theme color_mode
          physical_attributes w = (Raise e, w))
  /\ (forall image_bytes user_image upload_buffer e,
        read photo = Ok image_bytes -> Image_open image_bytes = Ok user_image ->
        Image_save_png user_image = Ok upload_buffer ->
        generate_content "gemini-2.5-flash-image"
          (contents_of (Prompt.prompt reference theme style color_mode physical_attributes)
             user_image reference) = Raise e ->
        generate_tattoo_body request photo reference style theme color_mode
          physical_attributes w
        = (Raise e,
           called w "gemini-2.5-flash-image"
             (contents_of
                (Prompt.prompt reference theme style color_mode physical_attributes)
                user_image reference)))
  /\ (forall e w1,
        generate_tattoo_body request photo reference style theme color_mode
          physical_attributes w = (Raise e, w1) ->
        read photo = Raise e
        \/ exists image_bytes, read photo = Ok image_bytes
             /\ (Image_open image_bytes = Raise e
                 \/ exists user_image, Image_open image_bytes = Ok user_image
                      /\ (Image_save_png user_image = Raise e
                          \/ generate_content "gemini-2.5-flash-image"
                               (contents_of
                                  (Prompt.prompt reference theme style color_mode
                                     physical_attributes) user_image reference)
                             = Raise e
                          \/ (PyStr.contains (accept_header request) "application/json"
                              = false
                              /\ exists context,
                                   template_render "index.html" request (Some context)
                                     None = Raise e))))
  /\ (forall e' w',
        generate_tattoo request photo reference style theme color_mode
          physical_attributes w = (Raise e', w') <->
        exists e,
          generate_tattoo_body request photo reference style theme color_mode
            physical_attributes w = (Raise e, w')
          /\ template_render "index.html" request None (Some (str e)) = Raise e').
Proof.
  split; [| split; [| split; [| split; [| split; [| split; [| split; [| split]]]]]]].
  - intros e w1 Hbody. now rewrite generate_tattoo_outer, Hbody.
  - intros e w1 page Hbody Hpage. rewrite generate_tattoo_outer, Hbody.
    unfold templates_TemplateResponse. now rewrite Hpage.
  - intros resp w1 Hbody. now rewrite generate_tattoo_outer, Hbody.
  - intros e Hread. now rewrite generate_tattoo_body_unfold, Hread.
  - intros image_bytes e Hread Himg.
    now rewrite generate_tattoo_body_unfold, Hread, Himg.
  - intros image_bytes user_image e Hread Himg Hpng.
    now rewrite generate_tattoo_body_unfold, Hread, Himg, Hpng.
  - intros image_bytes user_image upload_buffer e Hread Himg Hpng Hapi.
    rewrite generate_tattoo_body_unfold, Hread, Himg, Hpng. cbv zeta.
    now rewrite Hapi.
  - intros e w1 Hbody. rewrite generate_tattoo_body_unfold in Hbody.
    destruct (read photo) as [image_bytes|e0]; [| injection Hbody as -> _; now left].
    right. exists image_bytes. split; [reflexivity |].
    destruct (Image_open image_bytes) as [user_image|e0];
      [| injection Hbody as -> _; now left].
    right. exists user_image. split; [reflexivity |].
    destruct (Image_save_png user_image) as [upload_buffer|e0];
      [| injection Hbody as -> _; now left].
    right. cbv zeta in Hbody.
    destruct (generate_content _ _) as [response|e0];
      [| injection Hbody as -> _; now left].
    right.
    destruct (process_parts_frame (parts_of response) ("", None)
                (called w "gemini-2.5-flash-image"
                   (contents_of
                      (Prompt.prompt reference theme style color_mode
                         physical_attributes) user_image reference)))
      as (out & w2 & Hparts & _).
    rewrite Hparts in Hbody. injection Hbody as Hrender _.
    exact (render_raises _ _ _ _ _ _ _ _ _ Hrender).
  - intros e' w'. rewrite generate_tattoo_outer.
    destruct (generate_tattoo_body _ _ _ _ _ _ _ w) as [[resp|e] w1].
    + split; [discriminate | intros (e & [=] & _)].
    + unfold templates_TemplateResponse.
      destruct (template_render "index.html" request None (Some (str e)))
        as [page|e0] eqn:Hpage.
      * split; [discriminate |]. intros (e1 & [= <- <-] & He1). congruence.
      * split.
        -- intros [= <- <-]. eauto.
        -- intros (e1 & [= <- <-] & He1). congruence.
Qed.

(** C5.  When the [Accept] header contains [application/json], the photo
    is read, decoded and encoded again, and the model answers with a
    single part that is an image part, the handler answers with the JSON
    object whose [generated_text] is empty and whose [image_base64] is a
    string, not null.  When the save block for that part completes, the
    string is the base64 encoding of the image as line 154 encoded it
    again; when the block raises, it is the base64 encoding of the part's
    raw data, and one of the four steps of the block raised: decoding
    the data, the scan of the directory, writing the file, or encoding
    into the buffer. *)
Theorem json_response_for_one_image_part (request : Request) (photo : UploadFile)
    (reference : option UploadFile)
    (style theme color_mode physical_attributes : string) (w : World)
    (image_bytes upload_buffer : bytes) (user_image : Image) (part : Part)
    (d : option bytes) :
  PyStr.contains (accept_header request) "application/json" = true ->
  read photo = Ok image_bytes ->
  Image_open image_bytes = Ok user_image ->
  Image_save_png user_image = Ok upload_buffer ->
  generate_content "gemini-2.5-flash-image"
    (contents_of (Prompt.prompt reference theme style color_mode physical_attributes)
       user_image reference)
  = Ok {| parts := Some [part] |} ->
  image_data part = Some d ->
  exists b64 w',
    generate_tattoo request photo reference style theme color_mode physical_attributes w
    = (Ok (JSONResponse "" (Some b64)), w')
    /\ match save_generated d
               (called w "gemini-2.5-flash-image"
                  (contents_of
                     (Prompt.prompt reference theme style color_mode physical_attributes)
                     user_image reference)) with
       | (Ok s, w2) =>
           b64 = s /\ w' = w2
           /\ exists gen_img buffer,
                Image_open (bytes_or_empty d) = Ok gen_img
                /\ Image_save_png gen_img = Ok buffer
                /\ b64 = Base64.b64encode buffer
       | (Raise e, w2) =>
           b64 = Base64.b64encode (bytes_or_empty d) /\ w' = w2
           /\ save_step_raises d
                (called w "gemini-2.5-flash-image"
                   (contents_of
                      (Prompt.prompt reference theme style color_mode
                         physical_attributes) user_image reference)) e
       end.
Proof.
  intros Haccept Hread Himg Hpng Hapi Hd.
  rewrite generate_tattoo_outer, generate_tattoo_body_unfold, Hread, Himg, Hpng.
  cbv zeta. rewrite Hapi.
  change (parts_of {| parts := Some [part] |}) with [part].
  rewrite process_parts_cons, (process_part_image part d "" None _ Hd).
  destruct (save_generated d _) as [[b64|e] w1] eqn:Hsave.
  - exists b64, w1. simpl process_parts. unfold ret. simpl fst. simpl snd.
    rewrite (render_json _ _ _ _ _ _ _ _ Haccept).
    split; [reflexivity |]. split; [reflexivity |]. split; [reflexivity |].
    destruct (save_generated_ok_inv _ _ _ _ Hsave)
      as (gen_img & content & buffer & Hgen & _ & _ & Hbuf & -> & _).
    eauto.
  - exists (Base64.b64encode (bytes_or_empty d)), w1.
    simpl process_parts. unfold ret. simpl fst. simpl snd.
    rewrite (render_json _ _ _ _ _ _ _ _ Haccept).
    split; [reflexivity |]. split; [reflexivity |]. split; [reflexivity |].
    apply save_generated_raises. eauto.
Qed.


(** C7.  When the reference upload cannot be read, or what was read is not
    an image, the exception is dropped: the content list is the prompt and
    the photo, and nothing else; the model is called with that list; and
    the request goes on as without a reference: when the model answers,
    the parts are processed and the response is built from them, and when
    the call fails it is the model's exception, not the reference's, that
    reaches the outer [try]. *)
Theorem reference_failure_is_swallowed (request : Request) (photo upload : UploadFile)
    (style theme color_mode physical_attributes : string) (w : World)
    (image_bytes upload_buffer : bytes) (user_image : Image) :
  read photo = Ok image_bytes ->
  Image_open image_bytes = Ok user_image ->
  Image_save_png user_image = Ok upload_buffer ->
  (exists e, read upload = Raise e)
  \/ (exists ref_bytes e, read upload = Ok ref_bytes /\ Image_open ref_bytes = Raise e) ->
  build_contents (Prompt.prompt (Some upload) theme style color_mode physical_attributes)
    user_image (Some upload) w
  = (Ok [inl (Prompt.prompt (Some upload) theme style color_mode physical_attributes);
         inr user_image], w)
  /\ exists r w',
       generate_tattoo_body request photo (Some upload) style theme color_mode
         physical_attributes w = (r, w')
       /\ api_calls w'
          = (api_calls w ++
             [("gemini-2.5-flash-image",
               [inl (Prompt.prompt (Some upload) theme style color_mode
                       physical_attributes);
                inr user_image])])%list
       /\ (forall response,
             generate_content "gemini-2.5-flash-image"
               [inl (Prompt.prompt (Some upload) theme style color_mode
                       physical_attributes);
                inr user_image] = Ok response ->
             exists out,
               process_parts (parts_of response) ("", None)
                 (called w "gemini-2.5-flash-image"
                    [inl (Prompt.prompt (Some upload) theme style color_mode
                            physical_attributes);
                     inr user_image])
               = (Ok out, w')
               /\ r = render request (Base64.b64encode upload_buffer) style theme
                        color_mode physical_attributes (fst out) (snd out)
               /\ (PyStr.contains (accept_header request) "application/json" = true ->
                   generate_tattoo request photo (Some upload) style theme color_mode
                     physical_attributes w
                   = (Ok (JSONResponse (fst out) (snd out)), w')))
       /\ (forall e',
             generate_content "gemini-2.5-flash-image"
               [inl (Prompt.prompt (Some upload) theme style color_mode
                       physical_attributes);
                inr user_image] = Raise e' ->
             r = Raise e'
             /\ generate_tattoo request photo (Some upload) style theme color_mode
                  physical_attributes w
                = (templates_TemplateResponse "index.html" request None
                     (Some (str e')), w')).
Proof.
  intros Hread Himg Hpng Hfail.
  assert (Hc : contents_of
                 (Prompt.prompt (Some upload) theme style color_mode physical_attributes)
                 user_image (Some upload)
               = [inl (Prompt.prompt (Some upload) theme style color_mode
                         physical_attributes);
                  inr user_image]).
  { unfold contents_of. destruct upload as [r]. simpl in Hfail.
    destruct Hfail as [[e ->] | (ref_bytes & e & -> & ->)]; reflexivity. }
  split; [now rewrite build_contents_value, Hc |].
  pose proof (generate_tattoo_body_unfold request photo (Some upload) style theme
                color_mode physical_attributes w) as Hbody.
  rewrite Hread, Himg, Hpng in Hbody. cbv zeta in Hbody. rewrite Hc in Hbody.
  destruct (generate_content _ _) as [response|e0].
  - destruct (process_parts_frame (parts_of response) ("", None)
                (called w "gemini-2.5-flash-image"
                   [inl (Prompt.prompt (Some upload) theme style color_mode
                           physical_attributes);
                    inr user_image]))
      as (out & w2 & Hparts & Hcalls & _).
    rewrite Hparts in Hbody.
    eexists _, w2. split; [exact Hbody |]. split; [exact Hcalls |].
    split; [| discriminate].
    intros response' [= <-]. exists out. split; [exact Hparts |].
    split; [reflexivity |]. intros Haccept.
    now rewrite generate_tattoo_outer, Hbody, (render_json _ _ _ _ _ _ _ _ Haccept).
  - eexists _, _. split; [exact Hbody |]. split; [reflexivity |].
    split; [discriminate |]. intros e' [= ->]. split; [reflexivity |].
    now rewrite generate_tattoo_outer, Hbody.
Qed.


Lemma written_files_length (m : N) (ps : list Part) :
  (forall img name, exists content, Image_save_file img name = Ok content) ->
  length (written_files m ps) = length (decoded ps).
Proof.
  intros Hsave. revert m. induction ps as [|p ps IH]; intros m; [reflexivity |].
  unfold decoded. simpl. unfold file_of.
  destruct (decoded_image p) as [img|]; [| apply IH].
  destruct (Hsave img (output_name (m + 1))) as [content ->].
  simpl. f_equal. apply IH.
Qed.

(** X1.  The loop on a directory the scan can read never raises and makes
    no call to the model.  The files it writes are those of the image
    parts whose data decode and whose save goes through, in order: the
    [k]-th such file (from 0) is new and goes under index [m + 1 + k],
    where [m] is the greatest index before the loop; no name of another
    form changes.  When no save fails, there is one file for each image
    part whose data decode.  The last image part decides
    [generated_image_base64]: it is the encoding of that part's raw data
    or of its image as line 154 encoded it again. *)
Theorem every_decodable_image_is_saved (ps : list Part) (txt : string)
    (b : option string) (w : World) :
  scannable (files w) = true ->
  exists b' w',
    process_parts ps (txt, b) w = (Ok (txt ++ all_text ps, b'), w')
    /\ api_calls w' = api_calls w
    /\ files w'
       = persist (max_index (listing (files w)))
           (written_files (max_index (listing (files w))) ps) (files w)
    /\ (forall k content,
          written_files (max_index (listing (files w))) ps !! k = Some content ->
          files w !! output_name (max_index (listing (files w)) + 1 + N.of_nat k) = None
          /\ files w' !! output_name (max_index (listing (files w)) + 1 + N.of_nat k)
             = Some content)
    /\ (forall f, (forall n, f <> output_name n) -> files w' !! f = files w !! f)
    /\ ((forall img name, exists content, Image_save_file img name = Ok content) ->
        length (written_files (max_index (listing (files w))) ps)
        = length (decoded ps))
    /\ (forall before p d after,
          ps = (before ++ p :: after)%list ->
          image_data p = Some d ->
          Forall (fun q => image_data q = None) after ->
          exists s, b' = Some s /\ image_base64_options d s).
Proof.
  intros Hscan.
  destruct (process_parts_text_image ps txt b w) as (b' & w' & Hrun & _).
  destruct (process_parts_persists ps (txt, b) w Hscan) as [out Hout].
  rewrite Hrun in Hout. injection Hout as _ ->.
  exists b'. eexists. split; [exact Hrun |].
  split; [reflexivity |]. split; [reflexivity |]. split; [| split; [| split]].
  - intros k content Hk. split.
    + apply output_name_fresh. lia.
    + apply persist_lookup, Hk.
  - intros f Hf. apply persist_other, Hf.
  - apply written_files_length.
  - intros before p d after -> Hp Hafter.
    destruct (process_parts_last_image before after p d (txt, b) _ w _ Hp Hafter Hrun)
      as (s & Hs & Hopt).
    exists s. split; [exact Hs | exact Hopt].
Qed.

End Claims.

(** ** Concrete collaborators and inputs *)

(** A stand-in image library: a file that starts with the byte [0x89] (as
    PNG files do) or [0xff] (as JPEG files do) is an image, made of the
    bytes that follow; anything else is not an image.  An image whose
    first byte is [0xcc] is in a mode that cannot be written as PNG; every
    other image is written with the first of the two marks. *)
Definition toy_open (b : bytes) : result bytes :=
  match b with
  | x89 :: pixels => Ok pixels
  | xff :: pixels => Ok pixels
  | _ => Raise (mkException "cannot identify image file")
  end.

Definition toy_encode (pixels : bytes) : result bytes :=
  match pixels with
  | xcc :: _ => Raise (mkException "cannot write mode F as PNG")
  | _ => Ok (x89 :: pixels)
  end.

(** Templates that are in place, and templates that are missing. *)
Definition good_templates (name : string) (context_result : option ResultContext)
    (context_error : option string) : result string :=
  Ok name.

Definition no_templates (name : string) (context_result : option ResultContext)
    (context_error : option string) : result string :=
  Raise (mkException name).

Definition toy_with
    (pages : string -> option ResultContext -> option string -> result string)
    (api : string -> list (string + bytes) -> result GenerateContentResponse)
  : Collaborators :=
  {| Image := bytes;
     Image_open := toy_open;
     Image_save_png := toy_encode;
     Image_save_file := fun pixels _ => toy_encode pixels;
     generate_content := api;
     template_render := fun name _ context_result context_error =>
                          pages name context_result context_error |}.

Definition toy (api : string -> list (string + bytes) -> result GenerateContentResponse)
  : Collaborators :=
  toy_with good_templates api.

Definition image_part (b : bytes) : Part :=
  {| text := None; inline_data := Some {| data := Some b |} |}.

Definition text_part (t : string) : Part :=
  {| text := Some t; inline_data := None |}.

(** A model that always answers with the given parts. *)
Definition answers (ps : list Part)
  : string -> list (string + bytes) -> result GenerateContentResponse :=
  fun _ _ => Ok {| parts := Some ps |}.

Definition world_of `{Collaborators} (fs : gmap string bytes) : World :=
  {| files := fs; api_calls := [] |}.

Definition two_files : gmap string bytes :=
  {[ "generated_image3.png" := [x89; x03]; "generated_image7.png" := [x89; x07] ]}.


(** A directory with one file, whose index is a superscript two. *)
Definition superscript_file : gmap string bytes :=
  {[ "generated_image" ++ String "178"%char ".png" := [x89; x02] ]}.

Definition json_request : Request :=
  {| headers := {[ "accept" := "text/html, application/json" ]} |}.
Definition html_request : Request :=
  {| headers := {[ "accept" := "text/html" ]} |}.
Definition good_photo : UploadFile := {| read := Ok [x89; x50] |}.
Definition bad_upload : UploadFile := {| read := Ok [x00] |}.
Definition unreadable_photo : UploadFile :=
  {| read := Raise (mkException "read failed") |}.

(** ** The properties at concrete inputs *)

(** The encoder on the test vectors of RFC 4648. *)
Example b64encode_vectors :
  Base64.b64encode [] = ""
  /\ Base64.b64encode [x66] = "Zg=="
  /\ Base64.b64encode [x66; x6f] = "Zm8="
  /\ Base64.b64encode [x66; x6f; x6f] = "Zm9v"
  /\ Base64.b64encode [x66; x6f; x6f; x62] = "Zm9vYg=="
  /\ Base64.b64encode [x66; x6f; x6f; x62; x61] = "Zm9vYmE="
  /\ Base64.b64encode [x66; x6f; x6f; x62; x61; x72] = "Zm9vYmFy".
Proof. repeat split. Qed.

(** C1 as worded, at a request with no reference and empty fields: the
    lines the handler builds are seven, with an empty line before the
    trailing instruction pair; the preamble followed by the pair alone
    makes six. *)
Lemma prompt_has_blank_line :
  Prompt.lines None "" "" "" "" = (Prompt.preamble ++ [""] ++ Prompt.trailing_pair)%list
  /\ Prompt.claimed_lines false "" "" "" ""
     = (Prompt.preamble ++ Prompt.trailing_pair)%list
  /\ length (Prompt.lines None "" "" "" "") = 7%nat
  /\ length (Prompt.claimed_lines false "" "" "" "") = 6%nat
  /\ Prompt.lines None "" "" "" "" !! 4%nat = Some ""
  /\ Prompt.claimed_lines false "" "" "" "" !! 4%nat = Some Prompt.no_text_line.
Proof. repeat split. Qed.

Lemma theme_line_phrasing_witness :
  "dragon" <> ""
  /\ Prompt.lines None "dragon" "" "" "" !! 4%nat = Some (Prompt.theme_general "dragon")
  /\ Prompt.theme_supplementary "dragon" ∉ Prompt.lines None "dragon" "" "" "".
Proof.
  split; [discriminate |].
  exact (theme_line_phrasing None "dragon" "" "" "" ltac:(discriminate)).
Defined.





(** C3 as worded, at a photo that cannot be read and templates that are
    missing: the exception of the photo reaches the outer [try], building
    the error page raises in turn, and the handler raises instead of
    answering. *)
Lemma error_page_can_raise :
  generate_tattoo (H := toy_with no_templates (answers []))
    json_request unreadable_photo None "" "" "" "" (world_of ∅)
  = (Raise (mkException "index.html"), world_of ∅)
  /\ generate_tattoo_body (H := toy_with no_templates (answers []))
       json_request unreadable_photo None "" "" "" "" (world_of ∅)
     = (Raise (mkException "read failed"), world_of ∅).
Proof. split; reflexivity. Qed.

Lemma json_response_witness :
  fst (generate_tattoo (H := toy (answers [image_part [xff; x01]]))
         json_request good_photo None "" "rose" "" "" (world_of two_files))
  = Ok (JSONResponse "" (Some "iQE=")).
Proof.
  destruct (json_response_for_one_image_part (H := toy (answers [image_part [xff; x01]]))
              json_request good_photo None "" "rose" "" "" (world_of two_files)
              [x89; x50] [x89; x50] [x50] (image_part [xff; x01]) (Some [xff; x01])
              ltac:(vm_compute; reflexivity) ltac:(reflexivity) ltac:(reflexivity)
              ltac:(reflexivity) ltac:(reflexivity) ltac:(reflexivity))
    as (b64 & w' & Hrun & Hb64).
  rewrite Hrun. vm_compute in Hb64. destruct Hb64 as (-> & _). reflexivity.
Defined.



Lemma reference_failure_witness :
  build_contents (H := toy (answers [])) (Prompt.prompt (Some bad_upload) "rose" "" "" "")
    [x50] (Some bad_upload) (world_of two_files)
  = (Ok [inl (Prompt.prompt (Some bad_upload) "rose" "" "" ""); inr [x50]],
     world_of two_files).
Proof.
  destruct (reference_failure_is_swallowed (H := toy (answers []))
              json_request good_photo bad_upload "" "rose" "" "" (world_of two_files)
              [x89; x50] [x89; x50] [x50]
              ltac:(reflexivity) ltac:(reflexivity) ltac:(reflexivity)
              ltac:(right; exists [x00], (mkException "cannot identify image file");
                    split; reflexivity))
    as (Hcontents & _).
  exact Hcontents.
Defined.


(** C9, at a directory that holds a file named [generated_image], a
    superscript two, [.png].  The stem passes [isdigit] and [int] raises on
    it, inside the [try] of line 132; so for a response with two image
    parts that both decode, neither image is saved: the directory is as it
    was, and [image_base64] is the encoding of the raw data of the second
    part, not of its re-encoded image. *)
Example superscript_name_blocks_saving :
  decoded (H := toy (answers [])) [image_part [xff; x0a]; image_part [xff; x0b]]
  = [[x0a]; [x0b]]
  /\ fst (generate_tattoo
            (H := toy (answers [image_part [xff; x0a]; image_part [xff; x0b]]))
            json_request good_photo None "" "" "" "" (world_of superscript_file))
     = Ok (JSONResponse "" (Some (Base64.b64encode [xff; x0b])))
  /\ files (snd (generate_tattoo
                   (H := toy (answers [image_part [xff; x0a]; image_part [xff; x0b]]))
                   json_request good_photo None "" "" "" "" (world_of superscript_file)))
     = superscript_file
  /\ PyStr.isdigit (String "178"%char "") = true
  /\ int (String "178"%char "")
     = Raise (ValueError (String "178"%char "")).
Proof. repeat split; vm_compute; reflexivity. Qed.

(** The same response in a directory of plain names: both images are
    saved, under the next two indices, and [image_base64] is the encoding
    of the second image as re-encoded. *)
Example two_images_are_saved :
  fst (generate_tattoo
         (H := toy (answers [image_part [xff; x0a]; image_part [xff; x0b]]))
         json_request good_photo None "" "" "" "" (world_of two_files))
  = Ok (JSONResponse "" (Some (Base64.b64encode [x89; x0b])))
  /\ files (snd (generate_tattoo
                   (H := toy (answers [image_part [xff; x0a]; image_part [xff; x0b]]))
                   json_request good_photo None "" "" "" "" (world_of two_files)))
     = <["generated_image9.png" := [x89; x0b]]>
         (<["generated_image8.png" := [x89; x0a]]> two_files).
Proof. split; vm_compute; reflexivity. Qed.

(** An image in a mode that PNG cannot hold: a photo of that kind ends the
    request before the model is called, and a generated image of that kind
    is not saved and comes back as its raw data. *)
Example unwritable_images :
  generate_tattoo_body (H := toy (answers [image_part [xff; x01]]))
    json_request {| read := Ok [x89; xcc] |} None "" "" "" "" (world_of two_files)
  = (Raise (mkException "cannot write mode F as PNG"), world_of two_files)
  /\ fst (generate_tattoo (H := toy (answers [image_part [xff; xcc; x01]]))
            json_request good_photo None "" "" "" "" (world_of two_files))
     = Ok (JSONResponse "" (Some (Base64.b64encode [xff; xcc; x01])))
  /\ files (snd (generate_tattoo (H := toy (answers [image_part [xff; xcc; x01]]))
                   json_request good_photo None "" "" "" "" (world_of two_files)))
     = two_files.
Proof. repeat split; vm_compute; reflexivity. Qed.

(** * Further properties of the code *)

(** ** The scan, again *)

Section MoreScanFacts.

Import PyStr.

(** X3.  Among the file names of this embedding (all characters with a
    code point below 256), the names the scan counts, and with which
    index: exactly those made of [generated_image], a decimal literal of
    ASCII digits (leading zeros allowed) and a four-character suffix that
    lower-cases to [.png]; the index is the value of the literal. *)
Theorem counted_names (f : string) (i : N) :
  index_of f = Some i
  <-> exists digits suffix,
        f = "generated_image" ++ digits ++ suffix
        /\ lower suffix = ".png"
        /\ ascii_digits digits = true
        /\ int digits = Ok i.
Proof. apply index_of_counted. Qed.

(** X4.  The listing order does not matter: a permutation of the names
    gives the same next index. *)
Theorem next_index_order_independent (l l' : list string) (n : N) :
  l ≡ₚ l' -> next_index l = Ok n -> next_index l' = Ok n.
Proof.
  intros Hperm Hn. apply next_index_ok_inv in Hn as [Hl ->].
  rewrite (forallb_readable_perm l l' Hperm) in Hl.
  now rewrite (next_index_ok l' Hl), (max_index_perm l l' Hperm).
Qed.

(** X5.  The scan raises exactly when some name that the filter keeps has a
    stem that passes [isdigit] and holds a character that is no ASCII
    digit (a superscript two, three or one). *)
Theorem scan_raises_iff (l : list string) :
  (exists e, next_index l = Raise e)
  <-> exists f, f ∈ l /\ is_existing f = true /\ isdigit (stem f) = true
               /\ ascii_digits (stem f) = false.
Proof.
  assert (Hread : forall f, readable f = false
                    <-> is_existing f = true /\ isdigit (stem f) = true
                        /\ ascii_digits (stem f) = false).
  { intros f. unfold readable.
    destruct (is_existing f); simpl; [| split; [discriminate | intros [? _]; discriminate]].
    destruct (isdigit (stem f)) eqn:Hd;
      [| split; [discriminate | intros (_ & ? & _); discriminate]].
    destruct (int (stem f)) as [idx|e] eqn:Hint.
    - destruct (proj1 (int_ok_iff _) (ex_intro _ idx Hint)) as [_ Ha].
      split; [discriminate | intros (_ & _ & Hf); congruence].
    - split; [intros _ | reflexivity]. split; [reflexivity |]. split; [reflexivity |].
      destruct (ascii_digits (stem f)) eqn:Ha; [| reflexivity].
      assert (Hne : stem f <> "") by (intros E; rewrite E in Hd; discriminate).
      destruct (proj2 (int_ok_iff _) (conj Hne Ha)) as [n Hn]. congruence. }
  split.
  - intros [e He]. destruct (forallb readable l) eqn:Hl.
    + rewrite (next_index_ok l Hl) in He. discriminate.
    + clear He. induction l as [|g l IH]; [discriminate |].
      simpl in Hl. destruct (readable g) eqn:Hg.
      * destruct (IH Hl) as (f & Hin & Hf). exists f.
        split; [now apply list_elem_of_further | exact Hf].
      * exists g. split; [apply list_elem_of_here | now apply Hread].
  - intros (f & Hin & Hf). apply next_index_raises.
    apply Hread in Hf. induction l as [|g l IH]; [inversion Hin |].
    simpl. apply elem_of_cons in Hin as [<- | Hin].
    + now rewrite Hf.
    + rewrite (IH Hin). apply andb_false_r.
Qed.

(** X6.  A name the handler writes is read back by the scan with the index
    it was written under; the scan gets past it without an exception; and
    different indices give different names. *)
Theorem written_name_is_read_back (n : N) :
  index_of (output_name n) = Some n
  /\ readable (output_name n) = true
  /\ (forall m, output_name n = output_name m -> n = m).
Proof.
  split; [apply index_of_output_name |]. split.
  - unfold readable.
    now rewrite is_existing_output_name, stem_output_name,
      PyStrFacts.isdigit_of_N, int_of_N.
  - intros m. apply output_name_inj.
Qed.

End MoreScanFacts.

(** ** The handler, again *)

Section MoreHandlerFacts.

Context `{Collaborators}.

(** X7.  The save block completes exactly when its four steps go through:
    the data decode as an image, the scan of the directory raises nothing,
    the image is written under the next name, and it is encoded once more
    into the buffer.  It leaves a new file exactly when the first three
    do. *)
Theorem image_saved_iff (d : option bytes) (w : World) :
  ((exists b64 w', save_generated d w = (Ok b64, w'))
   <-> exists img,
         Image_open (bytes_or_empty d) = Ok img
         /\ scannable (files w) = true
         /\ (exists content,
               Image_save_file img (output_name (max_index (listing (files w)) + 1))
               = Ok content)
         /\ (exists buffer, Image_save_png img = Ok buffer))
  /\ (files (snd (save_generated d w)) <> files w
      <-> exists img content,
            Image_open (bytes_or_empty d) = Ok img
            /\ scannable (files w) = true
            /\ Image_save_file img (output_name (max_index (listing (files w)) + 1))
               = Ok content).
Proof.
  split.
  - split.
    + intros (b64 & w' & Hrun).
      destruct (save_generated_ok_inv d b64 w w' Hrun)
        as (img & content & buffer & Himg & Hscan & Hsave & Hpng & _).
      exists img. eauto 10.
    + intros (img & Himg & Hscan & [content Hsave] & [buffer Hpng]).
      rewrite (save_generated_ok d img content buffer w Himg Hscan Hsave Hpng). eauto.
  - destruct (save_generated d w) as [r w'] eqn:Hrun. simpl snd. split.
    + intros Hne.
      destruct (save_generated_world d w w' r Hrun)
        as [-> | (img & content & Himg & Hscan & Hsave & _)]; [congruence | eauto].
    + intros (img & content & Himg & Hscan & Hsave) Heq.
      rewrite save_generated_unfold, Himg, (next_index_ok _ Hscan), Hsave in Hrun.
      destruct (saved_frame w content) as (Hfresh & _ & _).
      assert (Hw : w' = saved w (output_name (max_index (listing (files w)) + 1)) content)
        by (destruct (Image_save_png img); now injection Hrun as _ <-).
      assert (Hnew : files w' !! output_name (max_index (listing (files w)) + 1)
                     = Some content)
        by (rewrite Hw; apply lookup_insert_eq).
      rewrite Heq in Hnew. congruence.
Qed.

(** X8.  Two saves in a row, in one request or in two, get two indices in a
    row: after a save block that completed with a file under index [n],
    the next block writes nothing or writes under index [n + 1], and it
    completes under that index when its image decodes and both of its
    encodings go through. *)
Theorem consecutive_saves (d1 d2 : option bytes) (b1 : string) (w w1 : World) :
  save_generated d1 w = (Ok b1, w1) ->
  exists n img1 content1,
    Image_save_file img1 (output_name n) = Ok content1
    /\ w1 = saved w (output_name n) content1
    /\ (forall r w2,
          save_generated d2 w1 = (r, w2) ->
          w2 = w1 \/ exists content2, w2 = saved w1 (output_name (n + 1)) content2)
    /\ (forall img2 content2 buffer2,
          Image_open (bytes_or_empty d2) = Ok img2 ->
          Image_save_file img2 (output_name (n + 1)) = Ok content2 ->
          Image_save_png img2 = Ok buffer2 ->
          save_generated d2 w1
          = (Ok (Base64.b64encode buffer2),
             saved w1 (output_name (n + 1)) content2)).
Proof.
  intros Hrun.
  destruct (save_generated_ok_inv d1 b1 w w1 Hrun)
    as (img1 & content1 & buffer1 & _ & Hscan & Hsave & _ & _ & ->).
  destruct (saved_frame w content1) as (Hfresh & _ & _).
  assert (Hmax : max_index
                   (listing
                      (files (saved w (output_name (max_index (listing (files w)) + 1))
                                content1)))
                 = (max_index (listing (files w)) + 1)%N).
  { simpl files. apply max_index_insert. lia. }
  assert (Hscan1 : scannable
                     (files (saved w (output_name (max_index (listing (files w)) + 1))
                               content1)) = true).
  { simpl files. now rewrite scannable_insert. }
  exists (max_index (listing (files w)) + 1)%N, img1, content1.
  split; [exact Hsave |]. split; [reflexivity |]. split.
  - intros r w2 Hrun2.
    destruct (save_generated_world d2 _ w2 r Hrun2)
      as [-> | (img2 & content2 & _ & _ & _ & ->)]; [now left |].
    right. exists content2. now rewrite Hmax.
  - intros img2 content2 buffer2 Himg2 Hsave2 Hpng2.
    pose proof (save_generated_ok d2 img2 content2 buffer2 _ Himg2 Hscan1) as Hok.
    rewrite Hmax in Hok. exact (Hok Hsave2 Hpng2).
Qed.

Lemma truthy_text_no_image (p : Part) :
  PyStr.truthy (text_of p) = true -> image_data p = None.
Proof.
  unfold text_of, image_data.
  destruct (text p) as [[|c t]|]; [discriminate | reflexivity | discriminate].
Qed.

(** X9.  A part with a non-empty text counts as text only: whatever inline
    data the parts carry besides, a run over such parts writes no file and
    leaves [generated_image_base64] as it was. *)
Theorem text_parts_never_save (ps : list Part) (txt : string) (b : option string)
    (w : World) :
  Forall (fun p => PyStr.truthy (text_of p) = true) ps ->
  process_parts ps (txt, b) w = (Ok (txt ++ all_text ps, b), w).
Proof.
  intros Hps. apply process_parts_no_image.
  eapply Forall_impl; [exact Hps |]. intros p. apply truthy_text_no_image.
Qed.

(** X10.  When the photo is read, decoded and encoded again and the model
    answers, the response is built from the concatenation of the texts of
    all parts, in order, and from an image string that is null exactly
    when no part is an image part; for a client that accepts JSON these
    two are the fields of the object it gets. *)
Theorem response_text_and_image (request : Request) (photo : UploadFile)
    (reference : option UploadFile)
    (style theme color_mode physical_attributes : string) (w : World)
    (image_bytes upload_buffer : bytes) (user_image : Image)
    (response : GenerateContentResponse) :
  read photo = Ok image_bytes ->
  Image_open image_bytes = Ok user_image ->
  Image_save_png user_image = Ok upload_buffer ->
  generate_content "gemini-2.5-flash-image"
    (contents_of (Prompt.prompt reference theme style color_mode physical_attributes)
       user_image reference)
  = Ok response ->
  exists b w',
    generate_tattoo_body request photo reference style theme color_mode
      physical_attributes w
    = (render request (Base64.b64encode upload_buffer)
         style theme color_mode physical_attributes
         (all_text (parts_of response)) b, w')
    /\ (b = None <-> Forall (fun p => image_data p = None) (parts_of response))
    /\ (PyStr.contains (accept_header request) "application/json" = true ->
        generate_tattoo request photo reference style theme color_mode
          physical_attributes w
        = (Ok (JSONResponse (all_text (parts_of response)) b), w')).
Proof.
  intros Hread Himg Hpng Hapi.
  pose proof (generate_tattoo_body_unfold request photo reference style theme
                color_mode physical_attributes w) as Hbody.
  rewrite Hread, Himg, Hpng in Hbody. cbv zeta in Hbody. rewrite Hapi in Hbody.
  destruct (process_parts_text_image (parts_of response) "" None
              (called w "gemini-2.5-flash-image"
                 (contents_of
                    (Prompt.prompt reference theme style color_mode physical_attributes)
                    user_image reference)))
    as (b & w' & Hparts & Hb).
  rewrite Hparts in Hbody. simpl fst in Hbody. simpl snd in Hbody.
  exists b, w'. split; [exact Hbody |]. split; [rewrite Hb; tauto |].
  intros Haccept.
  now rewrite generate_tattoo_outer, Hbody, (render_json _ _ _ _ _ _ _ _ Haccept).
Qed.

(** X11.  The model is called once in a request, after the photo has been
    read, decoded and encoded again, and not at all when one of the three
    raises. *)
Theorem model_called_once (request : Request) (photo : UploadFile)
    (reference : option UploadFile)
    (style theme color_mode physical_attributes : string) (w w' : World)
    (r : result HTTPResponse) :
  generate_tattoo request photo reference style theme color_mode physical_attributes w
  = (r, w') ->
  ((exists e,
      read photo = Raise e
      \/ exists image_bytes,
           read photo = Ok image_bytes
           /\ (Image_open image_bytes = Raise e
               \/ exists user_image,
                    Image_open image_bytes = Ok user_image
                    /\ Image_save_png user_image = Raise e))
   /\ api_calls w' = api_calls w)
  \/ (exists image_bytes user_image upload_buffer,
        read photo = Ok image_bytes
        /\ Image_open image_bytes = Ok user_image
        /\ Image_save_png user_image = Ok upload_buffer
        /\ api_calls w'
           = (api_calls w ++
              [("gemini-2.5-flash-image",
                contents_of
                  (Prompt.prompt reference theme style color_mode physical_attributes)
                  user_image reference)])%list).
Proof.
  rewrite generate_tattoo_outer.
  destruct (generate_tattoo_body _ _ _ _ _ _ _ w) as [r0 w0] eqn:Hbody.
  intros Hrun. assert (w' = w0) as -> by (destruct r0; now injection Hrun).
  clear Hrun. rewrite generate_tattoo_body_unfold in Hbody.
  destruct (read photo) as [image_bytes|e]; [| injection Hbody as _ <-; left; eauto].
  destruct (Image_open image_bytes) as [user_image|e] eqn:Himg;
    [| injection Hbody as _ <-; left; split; [exists e; right; eauto | reflexivity]].
  destruct (Image_save_png user_image) as [upload_buffer|e] eqn:Hpng;
    [| injection Hbody as _ <-; left; split; [exists e; right; eauto 6 | reflexivity]].
  cbv zeta in Hbody. right. exists image_bytes, user_image, upload_buffer.
  split; [reflexivity |]. split; [exact Himg |]. split; [exact Hpng |].
  destruct (generate_content _ _) as [response|e]; [| now injection Hbody as _ <-].
  destruct (process_parts_frame (parts_of response) ("", None)
              (called w "gemini-2.5-flash-image"
                 (contents_of
                    (Prompt.prompt reference theme style color_mode physical_attributes)
                    user_image reference)))
    as (out & w2 & Hparts & Hcalls & _).
  rewrite Hparts in Hbody. injection Hbody as _ <-. exact Hcalls.
Qed.

(** X12.  A reference upload that is read and decodes is sent to the model as
    the third item, after the prompt and the photo, in every request that
    gets as far as the call. *)
Theorem reference_is_third_item (request : Request) (photo upload : UploadFile)
    (style theme color_mode physical_attributes : string) (w : World)
    (image_bytes upload_buffer ref_bytes : bytes) (user_image ref_img : Image) :
  read photo = Ok image_bytes ->
  Image_open image_bytes = Ok user_image ->
  Image_save_png user_image = Ok upload_buffer ->
  read upload = Ok ref_bytes ->
  Image_open ref_bytes = Ok ref_img ->
  exists r w',
    generate_tattoo request photo (Some upload) style theme color_mode
      physical_attributes w = (r, w')
    /\ api_calls w'
       = (api_calls w ++
          [("gemini-2.5-flash-image",
            [inl (Prompt.prompt (Some upload) theme style color_mode
                    physical_attributes);
             inr user_image; inr ref_img])])%list.
Proof.
  intros Hread Himg Hpng Href Hrimg.
  assert (Hc : contents_of
                 (Prompt.prompt (Some upload) theme style color_mode physical_attributes)
                 user_image (Some upload)
               = [inl (Prompt.prompt (Some upload) theme style color_mode
                         physical_attributes);
                  inr user_image; inr ref_img]).
  { unfold contents_of. destruct upload as [r]. simpl in Href. subst r.
    now rewrite Hrimg. }
  rewrite generate_tattoo_outer, generate_tattoo_body_unfold, Hread, Himg, Hpng.
  cbv zeta. rewrite Hc.
  destruct (generate_content _ _) as [response|e]; [| eauto].
  destruct (process_parts_frame (parts_of response) ("", None)
              (called w "gemini-2.5-flash-image"
                 [inl (Prompt.prompt (Some upload) theme style color_mode
                         physical_attributes);
                  inr user_image; inr ref_img]))
    as (out & w2 & -> & Hcalls & _).
  destruct (render _ _ _ _ _ _ _ _); eauto.
Qed.

(** X13.  A request that ends with the error page has written no file, the
    directory is as it was, in every case but one: when the exception
    came from building the result page, after the loop over the parts.
    That one case needs a client that does not accept JSON. *)
Theorem error_leaves_directory (request : Request) (photo : UploadFile)
    (reference : option UploadFile)
    (style theme color_mode physical_attributes : string) (w w' : World)
    (name : string) (error : option string) :
  generate_tattoo request photo reference style theme color_mode physical_attributes w
  = (Ok (TemplateResponse name None error), w') ->
  files w' = files w
  \/ (PyStr.contains (accept_header request) "application/json" = false
      /\ exists context e,
           template_render "index.html" request (Some context) None = Raise e
           /\ error = Some (str e)).
Proof.
  rewrite generate_tattoo_outer.
  destruct (generate_tattoo_body _ _ _ _ _ _ _ w) as [r0 w0] eqn:Hbody.
  destruct (generate_tattoo_body_world _ _ _ _ _ _ _ _ _ _ Hbody)
    as [[-> [e ->]]
       | (ib & ui & ub & _ & _ & _ & [[-> [e ->]] | (response & out & _ & _ & ->)])].
  - intros [= _ <-]. now left.
  - intros [= _ <-]. now left.
  - destruct (render _ _ _ _ _ _ _ _) as [resp|e] eqn:Hrender.
    + intros [= -> _]. apply response_image_render in Hrender as [_ Hs]. discriminate.
    + apply render_raises in Hrender as (Haccept & context & Hpage).
      unfold templates_TemplateResponse.
      destruct (template_render "index.html" request None (Some (str e)));
        [| discriminate].
      intros [= _ <- _]. right. split; [exact Haccept |]. eauto.
Qed.

Lemma after_part_scannable (p : Part) (w : World) :
  scannable (files (after_part p w)) = scannable (files w)
  /\ (scannable (files w) = false -> after_part p w = w).
Proof.
  unfold after_part. destruct (scannable (files w)) eqn:Hscan.
  - split; [| discriminate].
    destruct (file_of p _) as [content|]; [| exact Hscan].
    destruct (saved_frame w content) as (Hfresh & _ & _).
    simpl files. now rewrite scannable_insert.
  - split; [exact Hscan | reflexivity].
Qed.

Lemma process_parts_scannable (ps : list Part) (acc : string * option string)
    (w w' : World) (r : result (string * option string)) :
  process_parts ps acc w = (r, w') ->
  scannable (files w') = scannable (files w)
  /\ (scannable (files w) = false -> files w' = files w).
Proof.
  revert acc w. induction ps as [|p ps IH]; intros acc w.
  - intros [= _ <-]. split; reflexivity.
  - rewrite process_parts_cons. destruct acc as [txt b].
    destruct (process_part_step txt b p w) as (b1 & -> & _).
    destruct (after_part_scannable p w) as [Hs1 Hf1]. intros Hrun.
    destruct (IH _ _ Hrun) as [Hs Hf]. split; [congruence |].
    intros Hscan. rewrite Hf by congruence. now rewrite Hf1.
Qed.

Lemma generate_tattoo_scannable (request : Request) (photo : UploadFile)
    (reference : option UploadFile)
    (style theme color_mode physical_attributes : string) (w w' : World)
    (r : result HTTPResponse) :
  generate_tattoo request photo reference style theme color_mode physical_attributes w
  = (r, w') ->
  scannable (files w') = scannable (files w)
  /\ (scannable (files w) = false -> files w' = files w).
Proof.
  rewrite generate_tattoo_outer.
  destruct (generate_tattoo_body _ _ _ _ _ _ _ w) as [r0 w0] eqn:Hbody.
  intros Hrun. assert (w' = w0) as -> by (destruct r0; now injection Hrun).
  clear Hrun.
  destruct (generate_tattoo_body_world _ _ _ _ _ _ _ _ _ _ Hbody)
    as [[-> _] | (ib & ui & ub & _ & _ & _ & [[-> _] | (response & out & _ & Hparts & _)])].
  - split; reflexivity.
  - split; reflexivity.
  - exact (process_parts_scannable _ _ _ _ _ Hparts).
Qed.

(** X14.  A request keeps the directory as readable as it found it: after a
    request, the scan goes through exactly when it did before. *)
Theorem request_keeps_directory_scannable (request : Request) (photo : UploadFile)
    (reference : option UploadFile)
    (style theme color_mode physical_attributes : string) (w w' : World)
    (r : result HTTPResponse) :
  generate_tattoo request photo reference style theme color_mode physical_attributes w
  = (r, w') ->
  scannable (files w') = scannable (files w).
Proof. intros Hrun. exact (proj1 (generate_tattoo_scannable _ _ _ _ _ _ _ _ _ _ Hrun)). Qed.

(** X15.  While the directory holds a name the scan raises on, no request
    writes a file, whatever the model answers. *)
Theorem unscannable_directory_is_never_written (request : Request)
    (photo : UploadFile) (reference : option UploadFile)
    (style theme color_mode physical_attributes : string) (w w' : World)
    (r : result HTTPResponse) :
  scannable (files w) = false ->
  generate_tattoo request photo reference style theme color_mode physical_attributes w
  = (r, w') ->
  files w' = files w.
Proof.
  intros Hscan Hrun.
  exact (proj2 (generate_tattoo_scannable _ _ _ _ _ _ _ _ _ _ Hrun) Hscan).
Qed.

(** X16.  The successful response is JSON exactly when the [Accept] header
    holds [application/json] somewhere in its value, with the letter case
    as written; with no such header it is the page. *)
Theorem json_iff_accept_contains (request : Request) (uploaded : string)
    (style theme color_mode physical_attributes txt : string) (b : option string) :
  render request uploaded style theme color_mode physical_attributes txt b
  = Ok (JSONResponse txt b)
  <-> exists before rest,
        headers request !! "accept" = Some (before ++ "application/json" ++ rest).
Proof.
  unfold render, accept_header.
  destruct (PyStr.contains _ _) eqn:Hc.
  - apply contains_spec in Hc as (before & rest & Hc).
    split; [intros _ | reflexivity]. exists before, rest.
    destruct (headers request !! "accept") as [v|]; [now rewrite Hc |].
    destruct before; discriminate.
  - split.
    + unfold templates_TemplateResponse.
      destruct (template_render _ _ _ _); discriminate.
    + intros (before & rest & Hv). rewrite Hv in Hc.
      assert (Ht : PyStr.contains (before ++ "application/json" ++ rest)
                     "application/json" = true) by (apply contains_spec; eauto).
      congruence.
Qed.

End MoreHandlerFacts.

(** X17.  Start-up goes through exactly when the environment has a non-empty
    [GEMINI_API_KEY], and then with that key; a missing key and an empty
    key both raise. *)
Theorem api_key_required (environ : gmap string string) (key : string) :
  load_api_key environ = Ok key
  <-> environ !! "GEMINI_API_KEY" = Some key /\ key <> "".
Proof.
  unfold load_api_key. destruct (environ !! "GEMINI_API_KEY") as [k|].
  - destruct k as [|c k]; simpl.
    + split; [discriminate | intros [[= <-] Hne]; congruence].
    + split; [intros [= <-]; split; [reflexivity | discriminate]
             | now intros [[= <-] _]].
  - split; [discriminate | intros [? _]; discriminate].
Qed.

(** X18.  The base64 string of [n] bytes has [4 * ceil(n / 3)] characters. *)
Theorem b64encode_length (bs : bytes) :
  String.length (Base64.b64encode bs) = (4 * ((length bs + 2) / 3))%nat.
Proof.
  assert (Hall : forall n (l : bytes), (length l < n)%nat ->
            String.length (Base64.b64encode l) = (4 * ((length l + 2) / 3))%nat).
  { induction n as [|n IH]; intros l Hl; [lia |].
    destruct l as [|a [|b [|c rest]]]; try reflexivity.
    change (Base64.b64encode (a :: b :: c :: rest))
      with (String (Base64.sextet
                      (N.lor (N.lor (N.shiftl (Byte.to_N a) 16)
                                (N.shiftl (Byte.to_N b) 8)) (Byte.to_N c)) 18)
             (String (Base64.sextet
                        (N.lor (N.lor (N.shiftl (Byte.to_N a) 16)
                                  (N.shiftl (Byte.to_N b) 8)) (Byte.to_N c)) 12)
                (String (Base64.sextet
                           (N.lor (N.lor (N.shiftl (Byte.to_N a) 16)
                                     (N.shiftl (Byte.to_N b) 8)) (Byte.to_N c)) 6)
                   (String (Base64.sextet
                              (N.lor (N.lor (N.shiftl (Byte.to_N a) 16)
                                        (N.shiftl (Byte.to_N b) 8)) (Byte.to_N c)) 0)
                      (Base64.b64encode rest))))).
    cbn [String.length length]. rewrite IH by (simpl in Hl; lia).
    replace (S (S (S (length rest))) + 2)%nat with ((length rest + 2) + 1 * 3)%nat by lia.
    rewrite Nat.div_add by lia. lia. }
  apply (Hall (S (length bs))). lia.
Qed.

(** ** The further properties at concrete inputs *)

Definition failing (msg : string)
  : string -> list (string + bytes) -> result GenerateContentResponse :=
  fun _ _ => Raise (mkException msg).

(** Templates whose result page cannot be built, while the error page
    can. *)
Definition no_result_page (name : string) (context_result : option ResultContext)
    (context_error : option string) : result string :=
  match context_result with
  | Some _ => Raise (mkException "result page")
  | None => Ok name
  end.

Definition good_reference : UploadFile := {| read := Ok [xff; x09] |}.

(** A part with a text and with inline data that decode. *)
Definition mixed_part : Part :=
  {| text := Some "hi"; inline_data := Some {| data := Some [xff; x01] |} |}.

Lemma every_decodable_image_witness :
  exists w',
    process_parts (H := toy (answers []))
      [image_part [xff; x0a]; text_part "hi"; image_part [xff; x0b]]
      ("", None) (world_of two_files)
    = (Ok ("hi", Some "iQs="), w')
    /\ files w' !! "generated_image9.png" = Some [x89; x0b].
Proof.
  destruct (every_decodable_image_is_saved (H := toy (answers []))
              [image_part [xff; x0a]; text_part "hi"; image_part [xff; x0b]]
              "" None (world_of two_files) ltac:(vm_compute; reflexivity))
    as (b' & w' & Hrun & _ & _ & Hsaved & _ & _ & Hlast).
  exists w'. split.
  - rewrite Hrun.
    destruct (Hlast [image_part [xff; x0a]; text_part "hi"] (image_part [xff; x0b])
                (Some [xff; x0b]) [] eq_refl eq_refl ltac:(constructor))
      as (s & -> & [-> | (img & buffer & Himg & Hbuf & ->)]).
    + exfalso. clear Hsaved Hlast. vm_compute in Hrun. discriminate.
    + injection Himg as <-. injection Hbuf as <-. reflexivity.
  - exact (proj2 (Hsaved 1%nat [x89; x0b] eq_refl)).
Defined.

Lemma keeps_files_witness :
  files_kept (H := toy (answers [image_part [xff; x0a]]))
    (world_of two_files)
    (snd (generate_tattoo (H := toy (answers [image_part [xff; x0a]]))
            json_request good_photo None "" "rose" "" "" (world_of two_files))).
Proof.
  exact (proj1 (generate_tattoo_keeps_files (H := toy (answers [image_part [xff; x0a]]))
                  json_request good_photo None "" "rose" "" "" (world_of two_files) _ _
                  (surjective_pairing _))).
Defined.

Lemma order_independent_witness :
  next_index ["generated_image7.png"; "generated_image3.png"] = Ok 8%N.
Proof.
  apply (next_index_order_independent
           ["generated_image3.png"; "generated_image7.png"]
           ["generated_image7.png"; "generated_image3.png"] 8%N).
  - apply perm_swap.
  - vm_compute. reflexivity.
Defined.

Lemma consecutive_saves_witness :
  exists n : N,
    save_generated (H := toy (answers [])) (Some [xff; x02])
      (snd (save_generated (H := toy (answers [])) (Some [xff; x01])
              (world_of two_files)))
    = (Ok (Base64.b64encode [x89; x02]),
       saved (snd (save_generated (H := toy (answers [])) (Some [xff; x01])
                     (world_of two_files)))
         (output_name (n + 1)) [x89; x02]).
Proof.
  destruct (consecutive_saves (H := toy (answers []))
              (Some [xff; x01]) (Some [xff; x02]) "iQE=" (world_of two_files)
              (snd (save_generated (H := toy (answers [])) (Some [xff; x01])
                      (world_of two_files)))
              ltac:(vm_compute; reflexivity))
    as (n & img1 & content1 & _ & _ & _ & Hsecond).
  exists n.
  exact (Hsecond [x02] [x89; x02] [x89; x02] eq_refl eq_refl eq_refl).
Defined.

Lemma text_parts_witness :
  process_parts (H := toy (answers [])) [mixed_part; mixed_part] ("", None)
    (world_of two_files)
  = (Ok ("hihi", None), world_of two_files).
Proof.
  exact (text_parts_never_save (H := toy (answers [])) [mixed_part; mixed_part]
           "" None (world_of two_files) ltac:(repeat constructor)).
Defined.

Lemma response_text_witness :
  exists b w',
    generate_tattoo
      (H := toy (answers [text_part "a"; image_part [x00]; text_part "b"]))
      json_request good_photo None "" "rose" "" "" (world_of two_files)
    = (Ok (JSONResponse "ab" b), w').
Proof.
  destruct (response_text_and_image
              (H := toy (answers [text_part "a"; image_part [x00]; text_part "b"]))
              json_request good_photo None "" "rose" "" "" (world_of two_files)
              [x89; x50] [x89; x50] [x50]
              {| parts := Some [text_part "a"; image_part [x00]; text_part "b"] |}
              ltac:(reflexivity) ltac:(reflexivity) ltac:(reflexivity)
              ltac:(reflexivity))
    as (b & w' & _ & _ & Hjson).
  exists b, w'. exact (Hjson ltac:(vm_compute; reflexivity)).
Defined.

Lemma model_called_once_witness :
  length (api_calls
            (snd (generate_tattoo (H := toy (answers [image_part [xff; x0a]]))
                    json_request good_photo None "" "rose" "" "" (world_of two_files))))
  = 1%nat.
Proof.
  destruct (model_called_once (H := toy (answers [image_part [xff; x0a]]))
              json_request good_photo None "" "rose" "" "" (world_of two_files) _ _
              (surjective_pairing _))
    as [[(e & [Hread | (image_bytes & Hread & [Himg | (user_image & Himg & Hpng)])]) _]
       | (image_bytes & user_image & upload_buffer & _ & _ & _ & Hcalls)].
  - discriminate Hread.
  - injection Hread as <-. discriminate Himg.
  - injection Hread as <-. injection Himg as <-. discriminate Hpng.
  - rewrite Hcalls. reflexivity.
Defined.

Lemma reference_third_witness :
  exists r w',
    generate_tattoo (H := toy (answers [])) json_request good_photo
      (Some good_reference) "" "rose" "" "" (world_of two_files)
    = (r, w')
    /\ api_calls w'
       = [("gemini-2.5-flash-image",
           [inl (Prompt.prompt (Some good_reference) "rose" "" "" "");
            inr [x50]; inr [x09]])].
Proof.
  destruct (reference_is_third_item (H := toy (answers []))
              json_request good_photo good_reference "" "rose" "" ""
              (world_of two_files) [x89; x50] [x89; x50] [xff; x09] [x50] [x09]
              ltac:(reflexivity) ltac:(reflexivity) ltac:(reflexivity)
              ltac:(reflexivity) ltac:(reflexivity))
    as (r & w' & Hrun & Hcalls).
  exists r, w'. split; [exact Hrun | exact Hcalls].
Defined.

Lemma error_leaves_directory_witness :
  files (snd (generate_tattoo (H := toy (failing "quota exceeded"))
                json_request good_photo None "" "rose" "" "" (world_of two_files)))
  = two_files.
Proof.
  destruct (error_leaves_directory (H := toy (failing "quota exceeded"))
              json_request good_photo None "" "rose" "" "" (world_of two_files)
              (snd (generate_tattoo (H := toy (failing "quota exceeded"))
                      json_request good_photo None "" "rose" "" "" (world_of two_files)))
              "index.html" (Some "quota exceeded") ltac:(vm_compute; reflexivity))
    as [Hfiles | [Haccept _]].
  - exact Hfiles.
  - vm_compute in Haccept. discriminate.
Defined.

(** The one case in which the error page comes with a new file: the image
    was saved, and then the result page could not be built. *)
Example failed_result_page_keeps_file :
  fst (generate_tattoo (H := toy_with no_result_page (answers [image_part [xff; x0a]]))
         html_request good_photo None "" "rose" "" "" (world_of two_files))
  = Ok (TemplateResponse "index.html" None (Some "result page"))
  /\ files (snd (generate_tattoo
                   (H := toy_with no_result_page (answers [image_part [xff; x0a]]))
                   html_request good_photo None "" "rose" "" "" (world_of two_files)))
     = <["generated_image8.png" := [x89; x0a]]> two_files.
Proof. split; vm_compute; reflexivity. Qed.

Lemma keeps_scannable_witness :
  scannable
    (files (snd (generate_tattoo (H := toy (answers [image_part [xff; x0a]]))
                   json_request good_photo None "" "rose" "" "" (world_of two_files))))
  = scannable two_files.
Proof.
  exact (request_keeps_directory_scannable
           (H := toy (answers [image_part [xff; x0a]]))
           json_request good_photo None "" "rose" "" "" (world_of two_files) _ _
           (surjective_pairing _)).
Defined.

Lemma unscannable_witness :
  files (snd (generate_tattoo (H := toy (answers [image_part [xff; x0a]]))
                json_request good_photo None "" "rose" "" ""
                (world_of superscript_file)))
  = superscript_file.
Proof.
  exact (unscannable_directory_is_never_written
           (H := toy (answers [image_part [xff; x0a]]))
           json_request good_photo None "" "rose" "" "" (world_of superscript_file) _ _
           ltac:(vm_compute; reflexivity) (surjective_pairing _)).
Defined.

(** ** The prompt, again *)

(** X19.  The fields go into the prompt as they are, line feeds included: a
    theme that ends with a line feed and a style line gives the very prompt
    that the theme and the style would give as two fields. *)
Theorem theme_can_forge_style_line (reference : option UploadFile)
    (theme style color_mode physical_attributes : string) :
  theme <> "" ->
  style <> "" ->
  Prompt.prompt reference (theme ++ PyStr.newline ++ Prompt.style_line style) ""
    color_mode physical_attributes
  = Prompt.prompt reference theme style color_mode physical_attributes.
Proof.
  intros Htheme Hstyle. unfold Prompt.prompt. rewrite !lines_spec_lines.
  destruct theme as [|c theme]; [congruence |].
  destruct style as [|c' style]; [congruence |].
  remember (PyStr.newline ++ Prompt.style_line (String c' style)) as forged eqn:E.
  rewrite app_cons.
  destruct reference, color_mode, physical_attributes;
    cbn [has_reference Prompt.spec_lines Prompt.optional_lines Prompt.preamble
         Prompt.trailing_pair Prompt.line_if
         negb String.eqb Ascii.eqb Bool.eqb app PyStr.join];
    change (String c (theme ++ forged)) with (String c theme ++ forged); subst forged;
    unfold Prompt.theme_general, Prompt.theme_supplementary;
    rewrite !PyStrFacts.app_assoc; reflexivity.
Qed.

Lemma forge_witness :
  Prompt.prompt None ("rose" ++ PyStr.newline ++ Prompt.style_line "fine line") "" "" ""
  = Prompt.prompt None "rose" "fine line" "" "".
Proof.
  exact (theme_can_forge_style_line None "rose" "fine line" "" ""
           ltac:(discriminate) ltac:(discriminate)).
Defined.
